(** * sunxi-gpiomem: the /dev/gpiomem character driver

    A shallow embedding of [drivers/char/gpiomem.c].  The driver keeps one
    global instance ([inst]) holding a table of physical register areas,
    and exposes [open], [release] and [mmap] on a character device.  The
    file operations and [probe] are written in a small state-and-fault
    monad over the kernel state the driver touches: the global [inst]
    pointer and the chronological trace of calls into the rest of the
    kernel. *)

From Stdlib Require Import ZArith List Bool Lia String.
From stdpp Require Import base list.

Local Open Scope Z_scope.

(** ** Constants *)

Definition DEVICE_MINOR : Z := 0.

(** Size of the [gpio_regs_phys] array of [struct sunxi_gpiomem_instance]. *)
Definition GPIO_REGS_MAX : Z := 32.

(** Error numbers of [errno-base.h] (the header is not part of the driver). *)
Definition ENOENT : Z := 2.
Definition ENXIO  : Z := 6.
Definition EAGAIN : Z := 11.
Definition ENOMEM : Z := 12.
Definition EACCES : Z := 13.
Definition EINVAL : Z := 22.

(** ** Data *)

(** [struct regs_phys]; [end] is a keyword, hence [end_]. *)
Record regs_phys := { start : Z; end_ : Z }.

(** A [struct device *], kept as an opaque handle. *)
Definition device := Z.

Record sunxi_gpiomem_instance := {
  gpio_regs_phys : list regs_phys;
  gpio_area_count : Z;
  dev : device
}.

(** The global [inst] pointer: never assigned, pointing to a live
    allocation, or dangling after [kfree]. *)
Inductive inst_ptr :=
| PNull
| PLive (i : sunxi_gpiomem_instance)
| PFreed (stale : sunxi_gpiomem_instance).

(** The [vm_ops] pointer of a [vm_area_struct]. *)
Inductive vm_ops_ptr :=
| vm_ops_null
| vm_ops_other (addr : Z)
| sunxi_gpiomem_vm_ops.

Record vm_area_struct := {
  vm_start : Z;
  vm_end : Z;
  vm_pgoff : Z;
  vm_page_prot : Z;
  vm_ops : vm_ops_ptr
}.

Record file := { f_flags : Z }.

(** The kernel extracts the minor number from [inode->i_rdev]; only the
    result matters to the driver. *)
Record inode := { i_minor : Z }.
Definition iminor (i : inode) : Z := i_minor i.

(** The argument list of one [remap_pfn_range] call. *)
Record remap_call := {
  rc_vma : vm_area_struct;
  rc_addr : Z;
  rc_pfn : Z;
  rc_size : Z;
  rc_prot : Z
}.

Inductive level := KERN_INFO | KERN_ERR.

(** Every call the driver makes into the rest of the kernel. *)
Inductive event :=
| EvLog (l : level) (d : device) (fmt : string) (args : list Z)
| EvStaleRead
| EvKzalloc (ok : bool)
| EvKfree
| EvAllocChrdevRegion (ret : Z)
| EvCdevInit
| EvCdevAdd (ret : Z)
| EvClassCreate (is_err : bool)
| EvDeviceCreate (is_err : bool)
| EvClassDestroy
| EvCdevDel
| EvUnregisterChrdevRegion
| EvRemapPfnRange (c : remap_call) (ret : Z).

Record kernel := { inst : inst_ptr; trace : list event }.

(** ** The platform the driver is compiled for and runs on

    [PAGE_SHIFT], the width of [unsigned long], [phys_mem_access_prot]
    and [remap_pfn_range] belong to the architecture and the memory
    manager.  The outcome of [remap_pfn_range] may depend on everything
    that happened before the call. *)
Record platform := {
  PAGE_SHIFT : Z;
  BITS_PER_LONG : Z;
  phys_mem_access_prot : file -> Z -> Z -> Z -> Z;
  remap_pfn_range_ret : list event -> remap_call -> Z
}.

(** What [probe] gets from its environment, apart from the platform
    device itself. *)
Record probe_env := {
  kzalloc_ok : bool;
  alloc_chrdev_region_ret : Z;
  cdev_add_ret : Z;
  class_create_is_err : bool;
  device_create_is_err : bool
}.

Record resource := { res_start : Z; res_end : Z }.

(** A platform device: its [struct device], the value that
    [of_property_count_elems_of_size(np, "reg", sizeof(u32))] yields for
    its node (a count, or a negative errno), and its memory resources. *)
Record platform_device := {
  pdev_dev : device;
  reg_elems : Z;
  resources : list resource
}.

(** Modelled from the spec: the platform resource provider
    ([platform_get_resource] with [IORESOURCE_MEM]) resolves a descriptor
    by index and fails when the index is undeclared. *)
Definition platform_get_resource (pdev : platform_device) (i : nat) : option resource :=
  resources pdev !! i.

(** ** The monad: kernel state, and the two ways an access can go wrong *)

Inductive fault := NullDeref | OutOfBounds.

Inductive result (A : Type) :=
| Done (a : A) (k : kernel)
| Oops (f : fault) (k : kernel).
Arguments Done {A} a k.
Arguments Oops {A} f k.

Definition M (A : Type) := kernel -> result A.

Definition ret {A} (a : A) : M A := fun k => Done a k.

Definition bind {A B} (m : M A) (f : A -> M B) : M B :=
  fun k => match m k with
           | Done a k' => f a k'
           | Oops e k' => Oops e k'
           end.

Declare Scope kernel_scope.
Delimit Scope kernel_scope with kernel.
Notation "x <- m ;; f" := (bind m (fun x => f))
  (at level 100, m at next level, right associativity) : kernel_scope.
Notation "m ;; f" := (bind m (fun _ => f))
  (at level 100, right associativity) : kernel_scope.
Local Open Scope kernel_scope.

Definition final_kernel {A} (r : result A) : kernel :=
  match r with Done _ k => k | Oops _ k => k end.

Definition oops {A} (e : fault) : M A := fun k => Oops e k.

Definition emit (e : event) : M unit :=
  fun k => Done tt {| inst := inst k; trace := trace k ++ [e] |}.

Definition get_inst_ptr : M inst_ptr := fun k => Done (inst k) k.

Definition set_inst_ptr (p : inst_ptr) : M unit :=
  fun k => Done tt {| inst := p; trace := trace k |}.

(** [*inst]: a null pointer faults.  Storage passed to [kfree] stays
    mapped, so a read through the dangling pointer returns the stale
    contents; the trace records that it happened. *)
Definition read_inst : M sunxi_gpiomem_instance :=
  p <- get_inst_ptr ;;
  match p with
  | PNull => oops NullDeref
  | PLive i => ret i
  | PFreed i => emit EvStaleRead ;; ret i
  end.

(** A store through [inst]. *)
Definition write_inst (f : sunxi_gpiomem_instance -> sunxi_gpiomem_instance) : M unit :=
  p <- get_inst_ptr ;;
  match p with
  | PNull => oops NullDeref
  | PLive i => set_inst_ptr (PLive (f i))
  | PFreed i => emit EvStaleRead ;; set_inst_ptr (PFreed (f i))
  end.

(** [dev_info(inst->dev, ...)] and [dev_err(inst->dev, ...)]. *)
Definition dev_info (fmt : string) (args : list Z) : M unit :=
  i <- read_inst ;; emit (EvLog KERN_INFO (dev i) fmt args).

Definition dev_err (fmt : string) (args : list Z) : M unit :=
  i <- read_inst ;; emit (EvLog KERN_ERR (dev i) fmt args).

(** ** Session gate *)

Definition sunxi_gpiomem_open (ino : inode) (f : file) : M Z :=
  let dev := iminor ino in
  dev_info "gpiomem device opened." [] ;;
  if negb (dev =? DEVICE_MINOR)
  then dev_err "Unknown minor device: %d" [dev] ;; ret (- ENXIO)
  else ret 0.

Definition sunxi_gpiomem_release (ino : inode) (f : file) : M Z :=
  let dev := iminor ino in
  if negb (dev =? DEVICE_MINOR)
  then dev_err "Unknown minor device %d" [dev] ;; ret (- ENXIO)
  else ret 0.

(** ** The scan of [mmap] over the area table *)

Inductive scan :=
| Found (gpio_area : nat)
| NoMatch
| OutOfArray.

(** The test of the [if] inside the loop. *)
Definition area_matches (r : regs_phys) (start0 end0 : Z) : bool :=
  (start0 <=? start r) && (end_ r <=? end0).

(** The [while (gpio_area < inst->gpio_area_count)] loop, by the number of
    iterations still allowed by its condition. *)
Fixpoint scan_areas (regs : list regs_phys) (start0 end0 : Z)
    (remaining gpio_area : nat) : scan :=
  match remaining with
  | O => NoMatch
  | S n =>
      match regs !! gpio_area with
      | None => OutOfArray
      | Some r =>
          if area_matches r start0 end0 then Found gpio_area
          else scan_areas regs start0 end0 n (S gpio_area)
      end
  end.

Definition find_area (i : sunxi_gpiomem_instance) (start0 end0 : Z) : scan :=
  scan_areas (gpio_regs_phys i) start0 end0 (Z.to_nat (gpio_area_count i)) 0.

Section Driver.

Variable P : platform.

(** Conversion to [unsigned long]. *)
Definition to_ulong (x : Z) : Z := x mod 2 ^ BITS_PER_LONG P.

(** The locals [start] and [end] of [sunxi_gpiomem_mmap]. *)
Definition mmap_start (vma : vm_area_struct) : Z :=
  to_ulong (Z.shiftl (vm_pgoff vma) (PAGE_SHIFT P)).

Definition mmap_end (vma : vm_area_struct) : Z :=
  to_ulong (to_ulong (mmap_start vma + vm_end vma) - vm_start vma).

(** [vma->vm_end - vma->vm_start]. *)
Definition vma_size (vma : vm_area_struct) : Z :=
  to_ulong (vm_end vma - vm_start vma).

Definition remap_pfn_range (vma : vm_area_struct) (addr pfn size prot : Z) : M Z :=
  fun k =>
    let c := {| rc_vma := vma; rc_addr := addr; rc_pfn := pfn;
                rc_size := size; rc_prot := prot |} in
    let r := remap_pfn_range_ret P (trace k) c in
    Done r {| inst := inst k; trace := trace k ++ [EvRemapPfnRange c r] |}.

Definition set_vm_page_prot (vma : vm_area_struct) (prot : Z) : vm_area_struct :=
  {| vm_start := vm_start vma; vm_end := vm_end vma; vm_pgoff := vm_pgoff vma;
     vm_page_prot := prot; vm_ops := vm_ops vma |}.

Definition set_vm_ops (vma : vm_area_struct) (ops : vm_ops_ptr) : vm_area_struct :=
  {| vm_start := vm_start vma; vm_end := vm_end vma; vm_pgoff := vm_pgoff vma;
     vm_page_prot := vm_page_prot vma; vm_ops := ops |}.

(** [sunxi_gpiomem_mmap] returns its status and leaves the descriptor
    it was handed in the state given as second component. *)
Definition sunxi_gpiomem_mmap (f : file) (vma : vm_area_struct)
    : M (Z * vm_area_struct) :=
  i <- read_inst ;;
  match find_area i (mmap_start vma) (mmap_end vma) with
  | OutOfArray => oops OutOfBounds
  | NoMatch => ret (- EACCES, vma)
  | Found _ =>
      let vma := set_vm_page_prot vma
                   (phys_mem_access_prot P f (vm_pgoff vma) (vma_size vma)
                      (vm_page_prot vma)) in
      let vma := set_vm_ops vma sunxi_gpiomem_vm_ops in
      r <- remap_pfn_range vma (vm_start vma) (vm_pgoff vma) (vma_size vma)
             (vm_page_prot vma) ;;
      if negb (r =? 0) then ret (- EAGAIN, vma) else ret (0, vma)
  end.

(** The admission decision as the caller sees it: anything but [-EACCES]. *)
Definition mmap_admitted (f : file) (vma : vm_area_struct) (k : kernel) : bool :=
  match sunxi_gpiomem_mmap f vma k with
  | Done (r, _) _ => negb (r =? - EACCES)
  | Oops _ _ => false
  end.

(** A sequence of [mmap] calls, one after the other. *)
Fixpoint run_mmaps (reqs : list (file * vm_area_struct)) (k : kernel) : kernel :=
  match reqs with
  | [] => k
  | (f, vma) :: rest => run_mmaps rest (final_kernel (sunxi_gpiomem_mmap f vma k))
  end.

(** ** Probe *)

(** [kzalloc]: zero-filled storage, or [NULL]. *)
Definition zeroed_instance : sunxi_gpiomem_instance :=
  {| gpio_regs_phys := replicate (Z.to_nat GPIO_REGS_MAX) {| start := 0; end_ := 0 |};
     gpio_area_count := 0;
     dev := 0 |}.

Definition kzalloc_inst (env : probe_env) : M unit :=
  emit (EvKzalloc (kzalloc_ok env)) ;;
  set_inst_ptr (if kzalloc_ok env then PLive zeroed_instance else PNull).

(** [kfree(inst)]: the pointer keeps its value and dangles. *)
Definition kfree_inst : M unit :=
  emit EvKfree ;;
  p <- get_inst_ptr ;;
  match p with
  | PLive i => set_inst_ptr (PFreed i)
  | _ => ret tt
  end.

Definition set_dev (d : device) (i : sunxi_gpiomem_instance) : sunxi_gpiomem_instance :=
  {| gpio_regs_phys := gpio_regs_phys i; gpio_area_count := gpio_area_count i; dev := d |}.

Definition set_gpio_area_count (n : Z) (i : sunxi_gpiomem_instance) : sunxi_gpiomem_instance :=
  {| gpio_regs_phys := gpio_regs_phys i; gpio_area_count := n; dev := dev i |}.

Definition set_gpio_regs_phys (n : nat) (r : regs_phys) (i : sunxi_gpiomem_instance)
    : sunxi_gpiomem_instance :=
  {| gpio_regs_phys := <[n := r]> (gpio_regs_phys i);
     gpio_area_count := gpio_area_count i; dev := dev i |}.

(** [inst->gpio_regs_phys[n] = r], faulting outside the array. *)
Definition store_area (n : nat) (r : regs_phys) : M unit :=
  i <- read_inst ;;
  if (n <? length (gpio_regs_phys i))%nat
  then write_inst (set_gpio_regs_phys n r)
  else oops OutOfBounds.

Definition area_of_resource (res : resource) : regs_phys :=
  {| start := to_ulong (res_start res); end_ := to_ulong (res_end res) |}.

(** The [for] loop over the resources, by the number of iterations still
    allowed by its condition.  [Some err] stands for the
    [goto failed_get_resource] taken with [err] set. *)
Fixpoint probe_resources (pdev : platform_device) (remaining i : nat) : M (option Z) :=
  match remaining with
  | O => ret None
  | S n =>
      match platform_get_resource pdev i with
      | Some res =>
          store_area i (area_of_resource res) ;;
          probe_resources pdev n (S i)
      | None =>
          dev_err "failed to get IO resource area %d" [Z.of_nat i] ;;
          ret (Some (- ENOENT))
      end
  end.

(** The closing [for] loop that prints every area. *)
Fixpoint log_areas (remaining i : nat) : M unit :=
  match remaining with
  | O => ret tt
  | S n =>
      s <- read_inst ;;
      match gpio_regs_phys s !! i with
      | None => oops OutOfBounds
      | Some r =>
          dev_info "Initialised: Registers at start:0x%08lx end:0x%08lx size:0x%08lx"
            [start r; end_ r; to_ulong (end_ r - start r)] ;;
          log_areas n (S i)
      end
  end.

(** The unwinding labels at the end of [sunxi_gpiomem_probe], last first. *)
Definition failed_inst_alloc (err : Z) : M Z :=
  dev_err "could not load sunxi_gpiomem" [] ;;
  ret err.

Definition failed_get_resource (err : Z) : M Z :=
  kfree_inst ;;
  failed_inst_alloc err.

Definition failed_alloc_chrdev (err : Z) : M Z :=
  failed_get_resource err.

Definition failed_cdev_add (err : Z) : M Z :=
  emit EvUnregisterChrdevRegion ;;
  failed_alloc_chrdev err.

Definition failed_class_create (err : Z) : M Z :=
  emit EvCdevDel ;;
  failed_cdev_add err.

Definition failed_device_create (err : Z) : M Z :=
  emit EvClassDestroy ;;
  failed_class_create err.

(** [IS_ERR] as assigned to an [int]. *)
Definition IS_ERR (b : bool) : Z := if b then 1 else 0.

Definition sunxi_gpiomem_probe (env : probe_env) (pdev : platform_device) : M Z :=
  kzalloc_inst env ;;
  p <- get_inst_ptr ;;
  match p with
  | PNull => failed_inst_alloc (- ENOMEM)
  | _ =>
    write_inst (set_dev (pdev_dev pdev)) ;;
    write_inst (set_gpio_area_count (Z.quot (reg_elems pdev) 4)) ;;
    s <- read_inst ;;
    if (gpio_area_count s >? 32) || (gpio_area_count s <=? 0) then
      dev_err "failed to get gpio register area." [] ;;
      failed_inst_alloc (- EINVAL)
    else
      dev_info "Initialised: GPIO register area is %d" [gpio_area_count s] ;;
      r <- probe_resources pdev (Z.to_nat (gpio_area_count s)) 0 ;;
      match r with
      | Some err => failed_get_resource err
      | None =>
        emit (EvAllocChrdevRegion (alloc_chrdev_region_ret env)) ;;
        let err := alloc_chrdev_region_ret env in
        if negb (err =? 0) then
          dev_err "unable to allocate device number" [] ;;
          failed_alloc_chrdev err
        else
          emit EvCdevInit ;;
          emit (EvCdevAdd (cdev_add_ret env)) ;;
          let err := cdev_add_ret env in
          if negb (err =? 0) then
            dev_err "unable to register device" [] ;;
            failed_cdev_add err
          else
            emit (EvClassCreate (class_create_is_err env)) ;;
            let err := IS_ERR (class_create_is_err env) in
            if negb (err =? 0) then failed_class_create err
            else
              emit (EvDeviceCreate (device_create_is_err env)) ;;
              let err := IS_ERR (device_create_is_err env) in
              if negb (err =? 0) then failed_device_create err
              else
                s <- read_inst ;;
                log_areas (Z.to_nat (gpio_area_count s)) 0 ;;
                ret 0
      end
  end.

End Driver.

(** ** A concrete board: 32-bit ARM with 4 KiB pages, device memory
    mapped uncached, and a memory manager that never runs out. *)
Definition sun7i : platform :=
  {| PAGE_SHIFT := 12;
     BITS_PER_LONG := 32;
     phys_mem_access_prot := fun _ _ _ prot => Z.lor prot 4;
     remap_pfn_range_ret := fun _ _ => 0 |}.

(** The same board when the memory manager cannot populate page tables. *)
Definition sun7i_oom : platform :=
  {| PAGE_SHIFT := 12;
     BITS_PER_LONG := 32;
     phys_mem_access_prot := fun _ _ _ prot => Z.lor prot 4;
     remap_pfn_range_ret := fun _ _ => - ENOMEM |}.

(** The PIO block of the scenario: one area of 256 bytes. *)
Definition pio_area : regs_phys := {| start := 0x01C20800; end_ := 0x01C20900 |}.

Definition pio_instance : sunxi_gpiomem_instance :=
  {| gpio_regs_phys := <[0%nat := pio_area]> (gpio_regs_phys zeroed_instance);
     gpio_area_count := 1;
     dev := 7 |}.

Definition pio_kernel : kernel := {| inst := PLive pio_instance; trace := [] |}.

(** A request for the one page that holds the PIO block. *)
Definition pio_page : vm_area_struct :=
  {| vm_start := 0x40000000; vm_end := 0x40001000; vm_pgoff := 0x1C20;
     vm_page_prot := 3; vm_ops := vm_ops_null |}.

(** A request for a page that holds no registered area. *)
Definition other_page : vm_area_struct :=
  {| vm_start := 0x40000000; vm_end := 0x40001000; vm_pgoff := 0x2000;
     vm_page_prot := 3; vm_ops := vm_ops_null |}.

Definition any_file : file := {| f_flags := 2 |}.

Definition pio_pdev : platform_device :=
  {| pdev_dev := 7; reg_elems := 4;
     resources := [{| res_start := 0x01C20800; res_end := 0x01C20BFF |}] |}.

Definition good_env : probe_env :=
  {| kzalloc_ok := true; alloc_chrdev_region_ret := 0; cdev_add_ret := 0;
     class_create_is_err := false; device_create_is_err := false |}.

Definition boot : kernel := {| inst := PNull; trace := [] |}.

(** ** Vocabulary of the statements *)

(** The vma as [mmap] leaves it once an area was found, and the call it
    then makes (lines 97 to 106 of the source). *)
Definition mmap_found_vma (P : platform) (f : file) (vma : vm_area_struct)
    : vm_area_struct :=
  set_vm_ops
    (set_vm_page_prot vma
       (phys_mem_access_prot P f (vm_pgoff vma) (vma_size P vma) (vm_page_prot vma)))
    sunxi_gpiomem_vm_ops.

Definition mmap_remap_call (P : platform) (f : file) (vma : vm_area_struct)
    : remap_call :=
  {| rc_vma := mmap_found_vma P f vma;
     rc_addr := vm_start vma;
     rc_pfn := vm_pgoff vma;
     rc_size := vma_size P vma;
     rc_prot := vm_page_prot (mmap_found_vma P f vma) |}.

(** The [remap_pfn_range] calls of a trace, in order. *)
Definition remap_calls (t : list event) : list remap_call :=
  omap (fun e => match e with EvRemapPfnRange c _ => Some c | _ => None end) t.

(** The events by which [probe] makes the device reachable from user
    space: a successful [cdev_add] or [device_create]. *)
Definition makes_available (e : event) : bool :=
  match e with
  | EvCdevAdd r => r =? 0
  | EvDeviceCreate is_err => negb is_err
  | _ => false
  end.

(** Log events, which is all the session gate may add to a trace. *)
Definition is_log (e : event) : bool :=
  match e with EvLog _ _ _ _ => true | _ => false end.

(** The areas the table holds: the first [gpio_area_count] array slots. *)
Definition region_table (i : sunxi_gpiomem_instance) : list regs_phys :=
  take (Z.to_nat (gpio_area_count i)) (gpio_regs_phys i).

(** Containment as the specification words it: the request lies inside
    some region of the table. *)
Definition spec_request_in_region (table : list regs_phys) (req_start req_end : Z)
    : Prop :=
  exists r, r ∈ table /\ start r <= req_start /\ req_end <= end_ r.

(** The instance behind a pointer, dangling or not. *)
Definition inst_contents (p : inst_ptr) : option sunxi_gpiomem_instance :=
  match p with
  | PNull => None
  | PLive i => Some i
  | PFreed i => Some i
  end.

(** Two overlapping areas that both hold the requested page: the scan
    stops at the first. *)
Definition overlapping_instance : sunxi_gpiomem_instance :=
  {| gpio_regs_phys :=
       <[1%nat := {| start := 0x01C20000; end_ := 0x01C20100 |}]>
         (gpio_regs_phys pio_instance);
     gpio_area_count := 2;
     dev := 7 |}.

(** A node that declares 33 areas, one more than the array holds. *)
Definition crowded_pdev : platform_device :=
  {| pdev_dev := 7; reg_elems := 132; resources := resources pio_pdev |}.

(** A node that declares exactly 32 areas of 1 KiB, one per resource. *)
Definition full_pdev : platform_device :=
  {| pdev_dev := 7; reg_elems := 128;
     resources :=
       map (fun n => {| res_start := 0x01C20000 + 0x400 * Z.of_nat n;
                        res_end := 0x01C203FF + 0x400 * Z.of_nat n |})
           (seq 0 32) |}.

(** A node whose [reg] property announces two areas while the device
    carries a single memory resource. *)
Definition short_pdev : platform_device :=
  {| pdev_dev := 7; reg_elems := 8; resources := resources pio_pdev |}.

(** A node whose [reg] property has 7 cells: one area and three cells
    left over. *)
Definition ragged_pdev : platform_device :=
  {| pdev_dev := 7; reg_elems := 7; resources := resources pio_pdev |}.

(** No event of a stretch of trace makes the device reachable. *)
Definition never_available (evs : list event) : bool :=
  forallb (fun e => negb (makes_available e)) evs.

(** The fields of the instance that only the head of [probe] assigns. *)
Definition header (p : inst_ptr) : option (Z * device) :=
  match inst_contents p with
  | Some s => Some (gpio_area_count s, dev s)
  | None => None
  end.

(** A computation is steady when it only appends to the trace and keeps
    the pointer's header: the body of [probe] after the count was stored,
    and every file operation, is made of such steps. *)
Definition steady {A} (m : M A) : Prop :=
  forall k,
    (exists evs, trace (final_kernel (m k)) = trace k ++ evs) /\
    header (inst (final_kernel (m k))) = header (inst k).

(** The instance right after [probe] stored the device and the count. *)
Definition probed_instance (pdev : platform_device) : sunxi_gpiomem_instance :=
  set_gpio_area_count (Z.quot (reg_elems pdev) 4)
    (set_dev (pdev_dev pdev) zeroed_instance).

(** ** Remove *)

(** [sunxi_gpiomem_remove] makes one call the trace has no event for,
    [device_destroy]; its calls are therefore kept in a list of their
    own, which starts out as the trace so far. *)
Inductive remove_call :=
| RmCall (e : event)
| RmDeviceDestroy.

Record teardown := { td_inst : inst_ptr; td_calls : list remove_call }.

Definition td_call (c : remove_call) (s : teardown) : teardown :=
  {| td_inst := td_inst s; td_calls := td_calls s ++ [c] |}.

(** [kfree(inst)]: as in [probe], the pointer keeps its value. *)
Definition td_kfree (s : teardown) : teardown :=
  {| td_inst := match td_inst s with PLive i => PFreed i | p => p end;
     td_calls := td_calls s ++ [RmCall EvKfree] |}.

(** [struct device *dev = inst->dev;], the first statement of [remove]:
    the device read, and the state after the read. *)
Definition td_read_dev (s : teardown) : fault + (device * teardown) :=
  match td_inst s with
  | PNull => inl NullDeref
  | PLive i => inr (dev i, s)
  | PFreed i => inr (dev i, td_call (RmCall EvStaleRead) s)
  end.

Definition sunxi_gpiomem_remove (pdev : platform_device) (k : kernel)
    : fault + (Z * teardown) :=
  let s := {| td_inst := inst k; td_calls := map RmCall (trace k) |} in
  match td_read_dev s with
  | inl e => inl e
  | inr (dev, s) =>
      let s := td_kfree s in
      let s := td_call RmDeviceDestroy s in
      let s := td_call (RmCall EvClassDestroy) s in
      let s := td_call (RmCall EvCdevDel) s in
      let s := td_call (RmCall EvUnregisterChrdevRegion) s in
      let s := td_call (RmCall (EvLog KERN_INFO dev "GPIO mem driver removed - OK" [])) s in
      inr (0, s)
  end.

(** The events among the calls of a teardown, and the kernel state a
    file operation finds after [remove]. *)
Definition events_of (cs : list remove_call) : list event :=
  omap (fun c => match c with RmCall e => Some e | RmDeviceDestroy => None end) cs.

Definition kernel_after_remove (s : teardown) : kernel :=
  {| inst := td_inst s; trace := events_of (td_calls s) |}.

(** ** What the driver holds

    The five things [probe] acquires and [remove] gives back.  A call
    that acquires what is already held, or gives back what is not held,
    breaks the ledger. *)
Record ledger := {
  holds_inst : bool;
  holds_region : bool;
  holds_cdev : bool;
  holds_class : bool;
  holds_device : bool
}.

Definition no_holdings : ledger :=
  {| holds_inst := false; holds_region := false; holds_cdev := false;
     holds_class := false; holds_device := false |}.

Definition inst_only : ledger :=
  {| holds_inst := true; holds_region := false; holds_cdev := false;
     holds_class := false; holds_device := false |}.

Definition all_holdings : ledger :=
  {| holds_inst := true; holds_region := true; holds_cdev := true;
     holds_class := true; holds_device := true |}.

Definition take_inst (l : ledger) : option ledger :=
  if holds_inst l then None
  else Some {| holds_inst := true; holds_region := holds_region l;
               holds_cdev := holds_cdev l; holds_class := holds_class l;
               holds_device := holds_device l |}.

Definition give_inst (l : ledger) : option ledger :=
  if holds_inst l
  then Some {| holds_inst := false; holds_region := holds_region l;
               holds_cdev := holds_cdev l; holds_class := holds_class l;
               holds_device := holds_device l |}
  else None.

Definition take_region (l : ledger) : option ledger :=
  if holds_region l then None
  else Some {| holds_inst := holds_inst l; holds_region := true;
               holds_cdev := holds_cdev l; holds_class := holds_class l;
               holds_device := holds_device l |}.

Definition give_region (l : ledger) : option ledger :=
  if holds_region l
  then Some {| holds_inst := holds_inst l; holds_region := false;
               holds_cdev := holds_cdev l; holds_class := holds_class l;
               holds_device := holds_device l |}
  else None.

Definition take_cdev (l : ledger) : option ledger :=
  if holds_cdev l then None
  else Some {| holds_inst := holds_inst l; holds_region := holds_region l;
               holds_cdev := true; holds_class := holds_class l;
               holds_device := holds_device l |}.

Definition give_cdev (l : ledger) : option ledger :=
  if holds_cdev l
  then Some {| holds_inst := holds_inst l; holds_region := holds_region l;
               holds_cdev := false; holds_class := holds_class l;
               holds_device := holds_device l |}
  else None.

Definition take_class (l : ledger) : option ledger :=
  if holds_class l then None
  else Some {| holds_inst := holds_inst l; holds_region := holds_region l;
               holds_cdev := holds_cdev l; holds_class := true;
               holds_device := holds_device l |}.

(** A class is destroyed only once its device is gone. *)
Definition give_class (l : ledger) : option ledger :=
  if holds_class l && negb (holds_device l)
  then Some {| holds_inst := holds_inst l; holds_region := holds_region l;
               holds_cdev := holds_cdev l; holds_class := false;
               holds_device := holds_device l |}
  else None.

Definition take_device (l : ledger) : option ledger :=
  if holds_device l then None
  else Some {| holds_inst := holds_inst l; holds_region := holds_region l;
               holds_cdev := holds_cdev l; holds_class := holds_class l;
               holds_device := true |}.

Definition give_device (l : ledger) : option ledger :=
  if holds_device l
  then Some {| holds_inst := holds_inst l; holds_region := holds_region l;
               holds_cdev := holds_cdev l; holds_class := holds_class l;
               holds_device := false |}
  else None.

Definition ledger_step (l : ledger) (c : remove_call) : option ledger :=
  match c with
  | RmCall (EvKzalloc true) => take_inst l
  | RmCall EvKfree => give_inst l
  | RmCall (EvAllocChrdevRegion r) => if r =? 0 then take_region l else Some l
  | RmCall EvUnregisterChrdevRegion => give_region l
  | RmCall (EvCdevAdd r) => if r =? 0 then take_cdev l else Some l
  | RmCall EvCdevDel => give_cdev l
  | RmCall (EvClassCreate false) => take_class l
  | RmCall EvClassDestroy => give_class l
  | RmCall (EvDeviceCreate false) => take_device l
  | RmDeviceDestroy => give_device l
  | _ => Some l
  end.

Fixpoint audit (cs : list remove_call) (l : ledger) : option ledger :=
  match cs with
  | [] => Some l
  | c :: rest =>
      match ledger_step l c with
      | Some l' => audit rest l'
      | None => None
      end
  end.

(** ** More vocabulary *)

Definition set_vm_pgoff (vma : vm_area_struct) (pgoff : Z) : vm_area_struct :=
  {| vm_start := vm_start vma; vm_end := vm_end vma; vm_pgoff := pgoff;
     vm_page_prot := vm_page_prot vma; vm_ops := vm_ops vma |}.

(** The calls a process makes on the session gate, and a run of them. *)
Inductive session_call :=
| CallOpen (ino : inode) (f : file)
| CallRelease (ino : inode) (f : file).

Definition session_inode (c : session_call) : inode :=
  match c with CallOpen ino _ => ino | CallRelease ino _ => ino end.

Fixpoint run_session (cs : list session_call) : M (list Z) :=
  match cs with
  | [] => ret []
  | c :: rest =>
      r <- match c with
           | CallOpen ino f => sunxi_gpiomem_open ino f
           | CallRelease ino f => sunxi_gpiomem_release ino f
           end ;;
      rs <- run_session rest ;;
      ret (r :: rs)
  end.

(** The status [probe] returns once [kzalloc] succeeded, read off the
    order of its tests. *)
Definition probe_status (env : probe_env) (pdev : platform_device) : Z :=
  let count := Z.quot (reg_elems pdev) 4 in
  if (count >? 32) || (count <=? 0) then - EINVAL
  else if (length (resources pdev) <? Z.to_nat count)%nat then - ENOENT
  else if negb (alloc_chrdev_region_ret env =? 0) then alloc_chrdev_region_ret env
  else if negb (cdev_add_ret env =? 0) then cdev_add_ret env
  else if class_create_is_err env then 1
  else if device_create_is_err env then 1
  else 0.

(** A request above the 4 GiB line whose truncated address is the PIO page. *)
Definition aliased_page : vm_area_struct := set_vm_pgoff pio_page 0x101C20.

(** An environment in which [class_create] fails. *)
Definition no_class_env : probe_env :=
  {| kzalloc_ok := true; alloc_chrdev_region_ret := 0; cdev_add_ret := 0;
     class_create_is_err := true; device_create_is_err := false |}.

(** A node without a usable [reg] property: the count helper reports
    an error number ([-EINVAL]). *)
Definition regless_pdev : platform_device :=
  {| pdev_dev := 7; reg_elems := -22; resources := [] |}.

(** The PIO page together with the 255 pages that follow it. *)
Definition pio_megabyte : vm_area_struct :=
  {| vm_start := 0x40000000; vm_end := 0x40100000; vm_pgoff := 0x1C20;
     vm_page_prot := 3; vm_ops := vm_ops_null |}.

(** The PIO page mapped at another address, with another protection. *)
Definition pio_page_elsewhere : vm_area_struct :=
  {| vm_start := 0x76F00000; vm_end := 0x76F01000; vm_pgoff := 0x1C20;
     vm_page_prot := 1; vm_ops := vm_ops_other 5 |}.

(** A read through the dangling [inst]. *)
Definition is_stale_read (e : event) : bool :=
  match e with EvStaleRead => true | _ => false end.

(** * Properties *)

(** ** The scan *)

Section ScanFacts.

Variable regs : list regs_phys.
Variables start0 end0 : Z.

Lemma area_matches_iff (r : regs_phys) :
  area_matches r start0 end0 = true <-> start0 <= start r /\ end_ r <= end0.
Proof.
  unfold area_matches. rewrite andb_true_iff, !Z.leb_le. tauto.
Qed.

(** A [Found] answer is the least matching index of the scanned window. *)
Lemma scan_areas_found (n g m : nat) :
  scan_areas regs start0 end0 n g = Found m ->
  (g <= m < g + n)%nat /\
  (exists r, regs !! m = Some r /\ area_matches r start0 end0 = true) /\
  (forall j r, (g <= j < m)%nat -> regs !! j = Some r ->
               area_matches r start0 end0 = false).
Proof.
  revert g. induction n as [|n IH]; intros g; simpl; [discriminate|].
  destruct (regs !! g) as [r|] eqn:Hg; [|discriminate].
  destruct (area_matches r start0 end0) eqn:Hm.
  - intros [= <-]. split; [lia|]. split; [eauto|]. intros j r' Hj. lia.
  - intros H. apply IH in H as (Hr & Hex & Hmin).
    split; [lia|]. split; [exact Hex|].
    intros j r' Hj Hl. destruct (decide (j = g)) as [->|Hne].
    + congruence.
    + apply (Hmin j r'); [lia|exact Hl].
Qed.

(** The scan answers [Found] exactly when some entry of the window matches. *)
Lemma scan_areas_found_iff (n g : nat) :
  (exists m, scan_areas regs start0 end0 n g = Found m) <->
  (exists j r, (g <= j < g + n)%nat /\ regs !! j = Some r /\
               area_matches r start0 end0 = true).
Proof.
  split.
  - intros [m H]. apply scan_areas_found in H as (Hr & (r & Hl & Hm) & _).
    exists m, r. auto.
  - revert g. induction n as [|n IH]; intros g (j & r & Hr & Hl & Hm); [lia|].
    simpl. destruct (regs !! g) as [r0|] eqn:Hg.
    + destruct (area_matches r0 start0 end0) eqn:Hm0; [eauto|].
      apply IH. exists j, r. split; [|auto].
      destruct (decide (j = g)) as [->|Hne]; [congruence|lia].
    + exfalso. apply lookup_ge_None in Hg. apply lookup_lt_Some in Hl. lia.
Qed.

(** Inside the array the scan never leaves it. *)
Lemma scan_areas_in_bounds (n g : nat) :
  (g + n <= length regs)%nat ->
  scan_areas regs start0 end0 n g <> OutOfArray.
Proof.
  revert g. induction n as [|n IH]; intros g Hb; simpl; [discriminate|].
  destruct (regs !! g) as [r|] eqn:Hg.
  - destruct (area_matches r start0 end0); [discriminate|]. apply IH. lia.
  - apply lookup_ge_None in Hg. lia.
Qed.

End ScanFacts.

(** ** Running the file operations on a live instance *)

Section DriverFacts.

Variable P : platform.

Lemma mmap_live (f : file) (vma : vm_area_struct) (k : kernel)
    (i : sunxi_gpiomem_instance) :
  inst k = PLive i ->
  sunxi_gpiomem_mmap P f vma k =
  match find_area i (mmap_start P vma) (mmap_end P vma) with
  | OutOfArray => Oops OutOfBounds k
  | NoMatch => Done (- EACCES, vma) k
  | Found _ =>
      let c := mmap_remap_call P f vma in
      let r := remap_pfn_range_ret P (trace k) c in
      Done (if negb (r =? 0) then - EAGAIN else 0, mmap_found_vma P f vma)
           {| inst := inst k; trace := trace k ++ [EvRemapPfnRange c r] |}
  end.
Proof.
  intros Hi. unfold sunxi_gpiomem_mmap, bind, read_inst, bind, get_inst_ptr.
  rewrite Hi. unfold ret.
  destruct (find_area i (mmap_start P vma) (mmap_end P vma)); try reflexivity.
  unfold remap_pfn_range, mmap_remap_call, mmap_found_vma. simpl.
  destruct (negb _); rewrite ?Hi; reflexivity.
Qed.

(** A dangling [inst] behaves like a live one, and leaves a mark. *)
Lemma mmap_freed (f : file) (vma : vm_area_struct) (k : kernel)
    (i : sunxi_gpiomem_instance) :
  inst k = PFreed i ->
  sunxi_gpiomem_mmap P f vma k =
  let k1 := {| inst := inst k; trace := trace k ++ [EvStaleRead] |} in
  match find_area i (mmap_start P vma) (mmap_end P vma) with
  | OutOfArray => Oops OutOfBounds k1
  | NoMatch => Done (- EACCES, vma) k1
  | Found _ =>
      let c := mmap_remap_call P f vma in
      let r := remap_pfn_range_ret P (trace k1) c in
      Done (if negb (r =? 0) then - EAGAIN else 0, mmap_found_vma P f vma)
           {| inst := inst k; trace := trace k1 ++ [EvRemapPfnRange c r] |}
  end.
Proof.
  intros Hi. unfold sunxi_gpiomem_mmap, bind, read_inst, bind, get_inst_ptr.
  rewrite Hi. unfold emit, ret. simpl.
  destruct (find_area i (mmap_start P vma) (mmap_end P vma));
    rewrite ?Hi; try reflexivity.
  unfold remap_pfn_range, mmap_remap_call, mmap_found_vma. simpl.
  destruct (negb _); rewrite ?Hi; reflexivity.
Qed.

(** The decision is a function of the instance and the request alone. *)
Lemma mmap_admitted_eq (f : file) (vma : vm_area_struct) (k : kernel) :
  mmap_admitted P f vma k =
  match inst_contents (inst k) with
  | None => false
  | Some i =>
      match find_area i (mmap_start P vma) (mmap_end P vma) with
      | Found _ => true
      | _ => false
      end
  end.
Proof.
  unfold mmap_admitted. destruct (inst k) as [|i|i] eqn:Hi; simpl.
  - unfold sunxi_gpiomem_mmap, bind, read_inst, bind, get_inst_ptr.
    rewrite Hi. reflexivity.
  - rewrite (mmap_live f vma k i Hi).
    destruct (find_area i _ _); simpl; try reflexivity.
    destruct (remap_pfn_range_ret P _ _ =? 0); reflexivity.
  - rewrite (mmap_freed f vma k i Hi).
    destruct (find_area i _ _); simpl; try reflexivity.
    destruct (remap_pfn_range_ret P _ _ =? 0); reflexivity.
Qed.

Lemma mmap_admitted_live (f : file) (vma : vm_area_struct) (k : kernel)
    (i : sunxi_gpiomem_instance) :
  inst k = PLive i ->
  mmap_admitted P f vma k = true <->
  exists m, find_area i (mmap_start P vma) (mmap_end P vma) = Found m.
Proof.
  intros Hi. rewrite mmap_admitted_eq, Hi. simpl.
  destruct (find_area i (mmap_start P vma) (mmap_end P vma)) as [m| |].
  - split; eauto.
  - split; [discriminate|]. intros [m [=]].
  - split; [discriminate|]. intros [m [=]].
Qed.

(** No [mmap] call changes the global instance. *)
Lemma mmap_keeps_inst (f : file) (vma : vm_area_struct) (k : kernel) :
  inst (final_kernel (sunxi_gpiomem_mmap P f vma k)) = inst k.
Proof.
  unfold sunxi_gpiomem_mmap, bind, read_inst, bind, get_inst_ptr.
  destruct (inst k) as [|i|i] eqn:Hi; simpl; [exact Hi| |].
  - destruct (find_area i _ _); simpl; try exact Hi.
    unfold bind, remap_pfn_range. simpl. destruct (negb _); simpl; exact Hi.
  - destruct (find_area i _ _); simpl; try exact Hi.
    unfold bind, remap_pfn_range. simpl. destruct (negb _); simpl; exact Hi.
Qed.

Lemma run_mmaps_keeps_inst (reqs : list (file * vm_area_struct)) (k : kernel) :
  inst (run_mmaps P reqs k) = inst k.
Proof.
  revert k. induction reqs as [|[f vma] rest IH]; intros k; simpl; [reflexivity|].
  rewrite IH. apply mmap_keeps_inst.
Qed.

End DriverFacts.

(** ** Mapping admission control *)

(** C1, as far as the code has it by design: with a live instance, a
    request that [mmap] admits holds one of the first [gpio_area_count]
    areas whole (the area starts at or after the start of the request and
    ends at or before its end), so a request that holds no area whole is
    denied; and a request made of exactly the pages an area touches (the
    area starts in its first page and ends in its last) is admitted.  On
    the board of the scenario the page that holds the PIO block is
    admitted and a page elsewhere is denied.  Nothing is said here about
    wider ranges around an area. *)
Theorem mmap_admitted_request_holds_area
    (P : platform) (f : file) (vma : vm_area_struct) (k : kernel)
    (i : sunxi_gpiomem_instance) :
  (inst k = PLive i ->
   (mmap_admitted P f vma k = true ->
    exists (n : nat) (r : regs_phys),
      Z.of_nat n < gpio_area_count i /\
      gpio_regs_phys i !! n = Some r /\
      mmap_start P vma <= start r /\ end_ r <= mmap_end P vma) /\
   (forall (n : nat) (r : regs_phys),
      Z.of_nat n < gpio_area_count i ->
      gpio_regs_phys i !! n = Some r ->
      mmap_start P vma <= start r < mmap_start P vma + 2 ^ PAGE_SHIFT P ->
      mmap_end P vma - 2 ^ PAGE_SHIFT P < end_ r <= mmap_end P vma ->
      mmap_admitted P f vma k = true)) /\
  mmap_admitted sun7i any_file pio_page pio_kernel = true /\
  mmap_admitted sun7i any_file other_page pio_kernel = false.
Proof.
  split; [|split; reflexivity].
  intros Hi. pose proof (mmap_admitted_live P f vma k i Hi) as Hadm.
  unfold find_area in Hadm. rewrite scan_areas_found_iff in Hadm. split.
  - intros Ht. apply Hadm in Ht as (j & r & Hj & Hl & Hm).
    apply area_matches_iff in Hm.
    exists j, r. split; [lia|]. split; [exact Hl|exact Hm].
  - intros n r Hn Hl Hfirst Hlast. apply Hadm. exists n, r.
    split; [lia|]. split; [exact Hl|]. apply area_matches_iff. lia.
Qed.

(** The page that holds the PIO block is made of exactly the pages the
    block touches. *)
Lemma mmap_admitted_request_holds_area_witness :
  inst pio_kernel = PLive pio_instance /\
  mmap_admitted sun7i any_file pio_page pio_kernel = true.
Proof.
  split; [reflexivity|].
  destruct (mmap_admitted_request_holds_area sun7i any_file pio_page pio_kernel
              pio_instance) as [Hlive _].
  destruct Hlive as [_ Htight]; [reflexivity|].
  apply (Htight 0%nat pio_area); [reflexivity|reflexivity| |];
    vm_compute; split; congruence.
Defined.

(** C1 as the specification states it fails.  The page that holds the PIO
    block is admitted although the request is not inside any region; and
    on the scan itself the two requests of the scenario come out the other
    way round: the sub-range request finds no area, the request that
    starts before the region finds area 0. *)
Lemma mmap_request_in_region_counterexample :
  (mmap_admitted sun7i any_file pio_page pio_kernel = true /\
   ~ spec_request_in_region (region_table pio_instance)
       (mmap_start sun7i pio_page) (mmap_end sun7i pio_page)) /\
  (find_area pio_instance 0x01C20800 0x01C20880 = NoMatch /\
   spec_request_in_region (region_table pio_instance) 0x01C20800 0x01C20880) /\
  (find_area pio_instance 0x01C20700 0x01C20900 = Found 0 /\
   ~ spec_request_in_region (region_table pio_instance) 0x01C20700 0x01C20900).
Proof.
  assert (Ht : region_table pio_instance = [pio_area]) by reflexivity.
  rewrite Ht. unfold spec_request_in_region.
  repeat split; try reflexivity.
  - intros (r & Hr & Hs & He). apply list_elem_of_singleton in Hr. subst r.
    vm_compute in Hs. apply Hs. reflexivity.
  - exists pio_area. split; [apply list_elem_of_singleton; reflexivity|].
    split; vm_compute; discriminate.
  - intros (r & Hr & Hs & He). apply list_elem_of_singleton in Hr. subst r.
    vm_compute in Hs. apply Hs. reflexivity.
Qed.

(** Wrap-around turns the end of the physical range that is forwarded
    (first byte plus length) into the end the scan compared. *)
Lemma mmap_end_from_size (P : platform) (vma : vm_area_struct) :
  to_ulong P (mmap_start P vma + vma_size P vma) = mmap_end P vma.
Proof.
  unfold mmap_end, vma_size, to_ulong.
  set (m := 2 ^ BITS_PER_LONG P). set (s := mmap_start P vma).
  destruct (Z.eq_dec m 0) as [Hm|Hm].
  - rewrite Hm, !Z.mod_0_r. lia.
  - rewrite Zplus_mod_idemp_r, Zminus_mod_idemp_l. f_equal. lia.
Qed.

(** C2: an admitted request makes exactly one call to [remap_pfn_range],
    and that call carries the page offset and the length of the request
    itself: the areas of the table appear nowhere in it. *)
Theorem mmap_forwards_requested_range
    (P : platform) (f : file) (vma : vm_area_struct) (k : kernel) :
  mmap_admitted P f vma k = true ->
  let k' := final_kernel (sunxi_gpiomem_mmap P f vma k) in
  let c := mmap_remap_call P f vma in
  remap_calls (trace k') = remap_calls (trace k) ++ [c] /\
  rc_addr c = vm_start vma /\
  rc_pfn c = vm_pgoff vma /\
  rc_size c = to_ulong P (vm_end vma - vm_start vma) /\
  to_ulong P (Z.shiftl (rc_pfn c) (PAGE_SHIFT P)) = mmap_start P vma /\
  to_ulong P (mmap_start P vma + rc_size c) = mmap_end P vma.
Proof.
  intros Ha. rewrite mmap_admitted_eq in Ha. simpl.
  split; [|repeat split; apply mmap_end_from_size].
  destruct (inst k) as [|i|i] eqn:Hi; simpl in Ha; [discriminate| |].
  - rewrite (mmap_live P f vma k i Hi).
    destruct (find_area i _ _); try discriminate. simpl.
    unfold remap_calls. rewrite omap_app. reflexivity.
  - rewrite (mmap_freed P f vma k i Hi).
    destruct (find_area i _ _); try discriminate. simpl.
    unfold remap_calls. rewrite !omap_app. simpl. rewrite app_nil_r. reflexivity.
Qed.

Lemma mmap_forwards_requested_range_witness :
  mmap_admitted sun7i any_file pio_page pio_kernel = true /\
  remap_calls (trace (final_kernel (sunxi_gpiomem_mmap sun7i any_file pio_page pio_kernel)))
  = [mmap_remap_call sun7i any_file pio_page] /\
  rc_pfn (mmap_remap_call sun7i any_file pio_page) = 0x1C20 /\
  rc_size (mmap_remap_call sun7i any_file pio_page) = 0x1000.
Proof.
  split; [reflexivity|].
  destruct (mmap_forwards_requested_range sun7i any_file pio_page pio_kernel)
    as (Hc & _ & Hp & Hs & _); [reflexivity|].
  split; [exact Hc|]. split; [exact Hp|]. rewrite Hs. reflexivity.
Defined.

(** C5: with a live, well-formed instance [mmap] always returns, and its
    status is 0, [-EACCES] or [-EAGAIN].  No matching area gives
    [-EACCES]; a matching area followed by a failing [remap_pfn_range]
    gives [-EAGAIN]; the two codes differ. *)
Theorem mmap_failure_outcomes
    (P : platform) (f : file) (vma : vm_area_struct) (k : kernel)
    (i : sunxi_gpiomem_instance) :
  inst k = PLive i ->
  gpio_area_count i <= Z.of_nat (length (gpio_regs_phys i)) ->
  let found := find_area i (mmap_start P vma) (mmap_end P vma) in
  let pt := remap_pfn_range_ret P (trace k) (mmap_remap_call P f vma) in
  (exists r vma' k',
     sunxi_gpiomem_mmap P f vma k = Done (r, vma') k' /\
     (r = 0 \/ r = - EACCES \/ r = - EAGAIN) /\
     (r = - EACCES <-> found = NoMatch) /\
     (r = - EAGAIN <-> found <> NoMatch /\ pt <> 0) /\
     (r = 0 <-> found <> NoMatch /\ pt = 0)) /\
  - EAGAIN <> - EACCES.
Proof.
  intros Hi Hwf. simpl. split; [|discriminate].
  rewrite (mmap_live P f vma k i Hi).
  pose proof (scan_areas_in_bounds (gpio_regs_phys i) (mmap_start P vma)
                (mmap_end P vma) (Z.to_nat (gpio_area_count i)) 0) as Hin.
  fold (find_area i (mmap_start P vma) (mmap_end P vma)) in Hin.
  destruct (find_area i _ _) as [m| |]; [| |exfalso; apply Hin; [lia|reflexivity]].
  - simpl. eexists _, _, _. split; [reflexivity|].
    destruct (Z.eqb_spec (remap_pfn_range_ret P (trace k) (mmap_remap_call P f vma)) 0)
      as [He|Hne]; simpl.
    + split; [auto|]. split; [split; [discriminate|discriminate]|].
      split; [split; [discriminate|tauto]|]. split; [split; [discriminate|exact He]|auto].
    + split; [auto|]. split; [split; [discriminate|discriminate]|].
      split; [split; [split; [discriminate|exact Hne]|auto]|].
      split; [discriminate|tauto].
  - eexists _, _, _. split; [reflexivity|].
    split; [auto|]. split; [tauto|]. split; [split; [discriminate|tauto]|].
    split; [discriminate|tauto].
Qed.

Lemma mmap_failure_outcomes_witness :
  exists r vma' k',
    sunxi_gpiomem_mmap sun7i_oom any_file pio_page pio_kernel = Done (r, vma') k' /\
    r = - EAGAIN.
Proof.
  destruct (mmap_failure_outcomes sun7i_oom any_file pio_page pio_kernel pio_instance)
    as [(r & vma' & k' & Hrun & _ & _ & Hagain & _) _].
  - reflexivity.
  - vm_compute. discriminate.
  - exists r, vma', k'. split; [exact Hrun|]. apply Hagain.
    split; vm_compute; discriminate.
Defined.

(** The least index of the window that passes the test is what the scan
    answers. *)
Lemma scan_areas_least (regs : list regs_phys) (start0 end0 : Z) (n g m : nat) :
  (g <= m < g + n)%nat ->
  (exists r, regs !! m = Some r /\ area_matches r start0 end0 = true) ->
  (forall j r, (g <= j < m)%nat -> regs !! j = Some r ->
               area_matches r start0 end0 = false) ->
  scan_areas regs start0 end0 n g = Found m.
Proof.
  intros Hr (r & Hl & Hm) Hmin.
  destruct (proj2 (scan_areas_found_iff regs start0 end0 n g)) as [m' Hf].
  { exists m, r. auto. }
  destruct (scan_areas_found regs start0 end0 n g m' Hf)
    as (Hr' & (r' & Hl' & Hm') & Hmin').
  destruct (lt_eq_lt_dec m m') as [[Hlt|Heq]|Hgt].
  - rewrite (Hmin' m r) in Hm by (auto; lia). discriminate.
  - subst m'. exact Hf.
  - rewrite (Hmin m' r') in Hm' by (auto; lia). discriminate.
Qed.

(** C8: the decision for a request is the same before and after any
    other [mmap] calls; and with a live instance [mmap] admits exactly
    when its scan stops at an area, which is the first one in array order
    that passes the test: the areas after it are not looked at. *)
Theorem mmap_admission_deterministic
    (P : platform) (f : file) (vma : vm_area_struct)
    (others : list (file * vm_area_struct)) (k : kernel) :
  mmap_admitted P f vma (run_mmaps P others k) = mmap_admitted P f vma k /\
  forall i : sunxi_gpiomem_instance,
    inst k = PLive i ->
    (mmap_admitted P f vma k = true <->
     exists m, find_area i (mmap_start P vma) (mmap_end P vma) = Found m) /\
    (forall m : nat,
       find_area i (mmap_start P vma) (mmap_end P vma) = Found m <->
       Z.of_nat m < gpio_area_count i /\
       (exists r, gpio_regs_phys i !! m = Some r /\
                  area_matches r (mmap_start P vma) (mmap_end P vma) = true) /\
       (forall j r, (j < m)%nat -> gpio_regs_phys i !! j = Some r ->
                    area_matches r (mmap_start P vma) (mmap_end P vma) = false)).
Proof.
  split.
  - rewrite !mmap_admitted_eq, run_mmaps_keeps_inst. reflexivity.
  - intros i Hi. split; [apply mmap_admitted_live; exact Hi|].
    intros m. unfold find_area. split.
    + intros Hf. apply scan_areas_found in Hf as (Hr & Hex & Hmin).
      split; [lia|]. split; [exact Hex|].
      intros j r Hj. apply Hmin. lia.
    + intros (Hm & Hex & Hmin). apply scan_areas_least; [lia|exact Hex|].
      intros j r Hj. apply Hmin. lia.
Qed.

(** With two overlapping areas that both hold the requested page, the
    request is admitted, before and after other calls, on the first. *)
Lemma mmap_admission_deterministic_witness :
  mmap_admitted sun7i any_file pio_page
    (run_mmaps sun7i [(any_file, other_page); (any_file, pio_page)]
       {| inst := PLive overlapping_instance; trace := [] |}) = true /\
  find_area overlapping_instance (mmap_start sun7i pio_page) (mmap_end sun7i pio_page)
  = Found 0.
Proof.
  destruct (mmap_admission_deterministic sun7i any_file pio_page
              [(any_file, other_page); (any_file, pio_page)]
              {| inst := PLive overlapping_instance; trace := [] |}) as [Hsame Hscan].
  destruct (Hscan overlapping_instance eq_refl) as [Hadm Hfirst].
  assert (Hfound : find_area overlapping_instance (mmap_start sun7i pio_page)
                     (mmap_end sun7i pio_page) = Found 0).
  { apply Hfirst. split; [reflexivity|]. split.
    - exists pio_area. split; reflexivity.
    - intros j r Hj. lia. }
  split; [|exact Hfound].
  rewrite Hsame. apply Hadm. exists 0%nat. exact Hfound.
Defined.

(** C9: when no area matches, [mmap] returns [-EACCES] and hands back
    the descriptor and the kernel state exactly as it got them; the page
    protection and the operations table are written only once an area was
    found. *)
Theorem mmap_denied_leaves_vma
    (P : platform) (f : file) (vma : vm_area_struct) (k : kernel)
    (i : sunxi_gpiomem_instance) :
  inst k = PLive i ->
  (find_area i (mmap_start P vma) (mmap_end P vma) = NoMatch ->
   sunxi_gpiomem_mmap P f vma k = Done (- EACCES, vma) k) /\
  (forall m, find_area i (mmap_start P vma) (mmap_end P vma) = Found m ->
   exists r k',
     sunxi_gpiomem_mmap P f vma k = Done (r, mmap_found_vma P f vma) k' /\
     vm_ops (mmap_found_vma P f vma) = sunxi_gpiomem_vm_ops /\
     vm_page_prot (mmap_found_vma P f vma) =
       phys_mem_access_prot P f (vm_pgoff vma) (vma_size P vma) (vm_page_prot vma)).
Proof.
  intros Hi. rewrite (mmap_live P f vma k i Hi). split.
  - intros ->. reflexivity.
  - intros m ->. simpl. eexists _, _. split; [reflexivity|]. split; reflexivity.
Qed.

Lemma mmap_denied_leaves_vma_witness :
  sunxi_gpiomem_mmap sun7i any_file other_page pio_kernel
  = Done (- EACCES, other_page) pio_kernel.
Proof.
  destruct (mmap_denied_leaves_vma sun7i any_file other_page pio_kernel pio_instance)
    as [Hdeny _]; [reflexivity|].
  apply Hdeny. reflexivity.
Defined.

(** ** Session gate *)

(** C4: with the driver loaded, [open] and [release] return 0 exactly
    for the minor number [DEVICE_MINOR] and [-ENXIO] for every other one;
    both leave the instance as it is and add nothing but log lines to the
    trace. *)
Theorem open_release_identity_gate
    (ino : inode) (f : file) (k : kernel) (i : sunxi_gpiomem_instance) :
  inst k = PLive i ->
  let status := if iminor ino =? DEVICE_MINOR then 0 else - ENXIO in
  (status = 0 <-> iminor ino = DEVICE_MINOR) /\
  (exists logs,
     sunxi_gpiomem_open ino f k
     = Done status {| inst := inst k; trace := trace k ++ logs |} /\
     forallb is_log logs = true) /\
  (exists logs,
     sunxi_gpiomem_release ino f k
     = Done status {| inst := inst k; trace := trace k ++ logs |} /\
     forallb is_log logs = true).
Proof.
  intros Hi. destruct k as [p t]. simpl in Hi. subst p. simpl.
  unfold sunxi_gpiomem_open, sunxi_gpiomem_release.
  destruct (Z.eqb_spec (iminor ino) DEVICE_MINOR) as [He|Hne]; simpl.
  - split; [tauto|]. split.
    + exists [EvLog KERN_INFO (dev i) "gpiomem device opened." []].
      split; reflexivity.
    + exists []. rewrite app_nil_r. split; reflexivity.
  - split; [split; [discriminate|tauto]|]. split.
    + exists [EvLog KERN_INFO (dev i) "gpiomem device opened." [];
              EvLog KERN_ERR (dev i) "Unknown minor device: %d" [iminor ino]].
      split; [|reflexivity]. cbn. rewrite <- app_assoc. reflexivity.
    + exists [EvLog KERN_ERR (dev i) "Unknown minor device %d" [iminor ino]].
      split; reflexivity.
Qed.

Lemma open_release_identity_gate_witness :
  sunxi_gpiomem_open {| i_minor := 0 |} any_file pio_kernel
  = Done 0 {| inst := inst pio_kernel;
              trace := [EvLog KERN_INFO 7 "gpiomem device opened." []] |} /\
  exists logs,
    sunxi_gpiomem_release {| i_minor := 3 |} any_file pio_kernel
    = Done (- ENXIO) {| inst := inst pio_kernel; trace := trace pio_kernel ++ logs |} /\
    forallb is_log logs = true.
Proof.
  split; [reflexivity|].
  destruct (open_release_identity_gate {| i_minor := 3 |} any_file pio_kernel
              pio_instance) as (_ & _ & Hrel); [reflexivity|].
  exact Hrel.
Defined.

(** ** Probe *)

(** *** Steady steps *)

Create HintDb steady discriminated.

Lemma steady_ret {A} (a : A) : steady (ret a).
Proof. intros k. split; [exists []; simpl; rewrite app_nil_r|]; reflexivity. Qed.

Lemma steady_oops {A} (e : fault) : steady (@oops A e).
Proof. intros k. split; [exists []; simpl; rewrite app_nil_r|]; reflexivity. Qed.

Lemma steady_emit (e : event) : steady (emit e).
Proof. intros k. split; [exists [e]|]; reflexivity. Qed.

Lemma steady_get_inst_ptr : steady get_inst_ptr.
Proof. intros k. split; [exists []; simpl; rewrite app_nil_r|]; reflexivity. Qed.

Lemma steady_bind {A B} (m : M A) (f : A -> M B) :
  steady m -> (forall a, steady (f a)) -> steady (bind m f).
Proof.
  intros Hm Hf k. unfold bind. destruct (Hm k) as [[e1 H1] G1].
  destruct (m k) as [a k1|e k1]; simpl in H1, G1.
  - destruct (Hf a k1) as [[e2 H2] G2]. split.
    + exists (e1 ++ e2). rewrite H2, H1, app_assoc. reflexivity.
    + rewrite G2. exact G1.
  - split; [exists e1; exact H1|exact G1].
Qed.

#[local] Hint Resolve steady_ret steady_oops steady_emit steady_get_inst_ptr
  : steady.

Ltac steady_step :=
  match goal with
  | |- steady (bind _ _) => apply steady_bind; [|intros ?]
  | |- steady (match ?x with _ => _ end) => destruct x
  | |- steady (if ?b then _ else _) => destruct b
  | |- steady _ => solve [auto with steady]
  end.

Lemma steady_read_inst : steady read_inst.
Proof. unfold read_inst. repeat steady_step. Qed.

(** A store into the area array, and [kfree], leave the header alone. *)
Lemma steady_write_area n r : steady (write_inst (set_gpio_regs_phys n r)).
Proof.
  intros [p t]. unfold write_inst, bind, get_inst_ptr. simpl.
  destruct p as [|s|s]; simpl.
  - split; [exists []; rewrite app_nil_r|]; reflexivity.
  - split; [exists []; rewrite app_nil_r|]; reflexivity.
  - split; [exists [EvStaleRead]|]; reflexivity.
Qed.

Lemma steady_kfree_inst : steady kfree_inst.
Proof.
  intros [p t]. unfold kfree_inst, bind, get_inst_ptr, emit. simpl.
  destruct p as [|s|s]; simpl; (split; [exists [EvKfree]|]; reflexivity).
Qed.

#[local] Hint Resolve steady_read_inst steady_write_area steady_kfree_inst
  : steady.

Lemma steady_dev_info fmt args : steady (dev_info fmt args).
Proof. unfold dev_info. repeat steady_step. Qed.

Lemma steady_dev_err fmt args : steady (dev_err fmt args).
Proof. unfold dev_err. repeat steady_step. Qed.

Lemma steady_store_area n r : steady (store_area n r).
Proof. unfold store_area. repeat steady_step. Qed.

#[local] Hint Resolve steady_dev_info steady_dev_err steady_store_area : steady.

Lemma steady_probe_resources P pdev n i : steady (probe_resources P pdev n i).
Proof.
  revert i. induction n as [|n IH]; intros i; simpl; repeat steady_step.
Qed.

Lemma steady_log_areas P n i : steady (log_areas P n i).
Proof.
  revert i. induction n as [|n IH]; intros i; simpl; repeat steady_step.
Qed.

Lemma steady_failed_inst_alloc err : steady (failed_inst_alloc err).
Proof. unfold failed_inst_alloc. repeat steady_step. Qed.

#[local] Hint Resolve steady_probe_resources steady_log_areas
  steady_failed_inst_alloc : steady.

Lemma steady_failed_get_resource err : steady (failed_get_resource err).
Proof. unfold failed_get_resource. repeat steady_step. Qed.

#[local] Hint Resolve steady_failed_get_resource : steady.

Lemma steady_failed_cdev_add err : steady (failed_cdev_add err).
Proof. unfold failed_cdev_add, failed_alloc_chrdev. repeat steady_step. Qed.

#[local] Hint Resolve steady_failed_cdev_add : steady.

Lemma steady_failed_class_create err : steady (failed_class_create err).
Proof. unfold failed_class_create. repeat steady_step. Qed.

#[local] Hint Resolve steady_failed_class_create : steady.

Lemma steady_failed_device_create err : steady (failed_device_create err).
Proof. unfold failed_device_create. repeat steady_step. Qed.

#[local] Hint Resolve steady_failed_device_create : steady.

(** *** The resource loop on a live instance *)

Section ProbeLoops.

Variable P : platform.
Variable pdev : platform_device.

(** When every index of the window resolves, the loop completes and
    leaves in each slot of the window the bounds of the resource of the
    same index; everything else is as before. *)
Lemma probe_resources_all (n i : nat) (s : sunxi_gpiomem_instance) (t : list event) :
  (i + n <= length (gpio_regs_phys s))%nat ->
  (forall j, (i <= j < i + n)%nat -> is_Some (resources pdev !! j)) ->
  exists s',
    probe_resources P pdev n i {| inst := PLive s; trace := t |}
    = Done None {| inst := PLive s'; trace := t |} /\
    gpio_area_count s' = gpio_area_count s /\
    dev s' = dev s /\
    length (gpio_regs_phys s') = length (gpio_regs_phys s) /\
    (forall j, (i <= j < i + n)%nat ->
       exists res, resources pdev !! j = Some res /\
                   gpio_regs_phys s' !! j = Some (area_of_resource P res)) /\
    (forall j, (j < i \/ i + n <= j)%nat ->
       gpio_regs_phys s' !! j = gpio_regs_phys s !! j).
Proof.
  revert i s. induction n as [|n IH]; intros i s Hlen Hall.
  - exists s. simpl. repeat split; auto. intros j Hj. lia.
  - destruct (Hall i) as [res Hres]; [lia|].
    simpl. unfold platform_get_resource. rewrite Hres.
    assert (Hi : (i <? length (gpio_regs_phys s))%nat = true)
      by (apply Nat.ltb_lt; lia).
    destruct (IH (S i) (set_gpio_regs_phys i (area_of_resource P res) s))
      as (s' & Hrun & Hc & Hd & Hl & Hin & Hout).
    { simpl. rewrite length_insert. lia. }
    { intros j Hj. apply Hall. lia. }
    exists s'. split.
    { unfold bind at 1. unfold store_area, bind, read_inst, bind, get_inst_ptr,
        write_inst, bind, get_inst_ptr, set_inst_ptr, ret. simpl.
      rewrite Hi. simpl. exact Hrun. }
    simpl in Hc, Hd, Hl. rewrite length_insert in Hl.
    split; [exact Hc|]. split; [exact Hd|]. split; [exact Hl|]. split.
    + intros j Hj. destruct (decide (j = i)) as [->|Hne].
      * exists res. split; [exact Hres|].
        rewrite Hout by lia. simpl. apply list_lookup_insert_eq. lia.
      * apply Hin. lia.
    + intros j Hj. rewrite Hout by lia. simpl.
      apply list_lookup_insert_ne. lia.
Qed.

(** When some index of the window does not resolve, the loop stops at
    the first such index with [-ENOENT], after one error line. *)
Lemma probe_resources_missing (n i j : nat) (s : sunxi_gpiomem_instance)
    (t : list event) :
  (i + n <= length (gpio_regs_phys s))%nat ->
  (i <= j < i + n)%nat ->
  resources pdev !! j = None ->
  exists s' j0,
    probe_resources P pdev n i {| inst := PLive s; trace := t |}
    = Done (Some (- ENOENT))
        {| inst := PLive s';
           trace := t ++ [EvLog KERN_ERR (dev s) "failed to get IO resource area %d"
                            [Z.of_nat j0]] |} /\
    (i <= j0 <= j)%nat /\
    resources pdev !! j0 = None /\
    gpio_area_count s' = gpio_area_count s /\
    dev s' = dev s.
Proof.
  revert i s. induction n as [|n IH]; intros i s Hlen Hj Hnone; [lia|].
  simpl. unfold platform_get_resource.
  destruct (resources pdev !! i) as [res|] eqn:Hres.
  - assert (Hi : (i <? length (gpio_regs_phys s))%nat = true)
      by (apply Nat.ltb_lt; lia).
    assert (Hne : j <> i) by congruence.
    destruct (IH (S i) (set_gpio_regs_phys i (area_of_resource P res) s))
      as (s' & j0 & Hrun & Hr & Hn0 & Hc & Hd).
    { simpl. rewrite length_insert. lia. }
    { lia. }
    { exact Hnone. }
    exists s', j0. split; [|split; [lia|auto]].
    unfold bind at 1. unfold store_area, bind, read_inst, bind, get_inst_ptr,
      write_inst, bind, get_inst_ptr, set_inst_ptr, ret. simpl.
    rewrite Hi. simpl. exact Hrun.
  - exists s, i. split; [reflexivity|]. split; [lia|auto].
Qed.

(** The closing loop only logs. *)
Lemma log_areas_live (n i : nat) (s : sunxi_gpiomem_instance) (t : list event) :
  (i + n <= length (gpio_regs_phys s))%nat ->
  exists logs,
    log_areas P n i {| inst := PLive s; trace := t |}
    = Done tt {| inst := PLive s; trace := t ++ logs |} /\
    forallb is_log logs = true.
Proof.
  revert i t. induction n as [|n IH]; intros i t Hlen.
  - exists []. rewrite app_nil_r. split; reflexivity.
  - destruct (lookup_lt_is_Some_2 (gpio_regs_phys s) i) as [r Hr]; [lia|].
    set (e := EvLog KERN_INFO (dev s)
                "Initialised: Registers at start:0x%08lx end:0x%08lx size:0x%08lx"
                [start r; end_ r; to_ulong P (end_ r - start r)]).
    destruct (IH (S i) (t ++ [e])) as (logs & Hrun & Hlogs); [lia|].
    exists (e :: logs). split; [|exact Hlogs].
    simpl. unfold bind at 1. simpl. rewrite Hr.
    unfold bind at 1. simpl. fold e. rewrite Hrun, <- app_assoc. reflexivity.
Qed.

End ProbeLoops.

(** *** The whole of [probe] *)

Section ProbeFacts.

Variable P : platform.
Variable env : probe_env.
Variable pdev : platform_device.

Let count : Z := Z.quot (reg_elems pdev) 4.

(** The head of [probe] up to the test of the count, once [kzalloc]
    succeeded. *)
Ltac probe_head Hok :=
  unfold sunxi_gpiomem_probe, kzalloc_inst; rewrite Hok;
  cbn -[zeroed_instance Z.quot Z.gtb Z.leb Z.to_nat];
  fold (probed_instance pdev); fold count.

Lemma count_check_rejects :
  count <= 0 \/ 32 < count -> (count >? 32) || (count <=? 0) = true.
Proof. intros H. apply orb_true_iff. rewrite Z.gtb_gt, Z.leb_le. lia. Qed.

Lemma count_check_accepts :
  0 < count <= 32 -> (count >? 32) || (count <=? 0) = false.
Proof.
  intros H. apply orb_false_iff.
  split; [rewrite Z.gtb_ltb; apply Z.ltb_ge|apply Z.leb_gt]; lia.
Qed.

Lemma probed_instance_length :
  length (gpio_regs_phys (probed_instance pdev)) = 32%nat.
Proof. reflexivity. Qed.

(** A count outside 1..32 ends [probe] with [-EINVAL] before any
    resource is looked at. *)
Lemma probe_bad_count (k : kernel) :
  kzalloc_ok env = true ->
  count <= 0 \/ 32 < count ->
  sunxi_gpiomem_probe P env pdev k
  = Done (- EINVAL)
      {| inst := PLive (probed_instance pdev);
         trace := trace k ++
           [EvKzalloc true;
            EvLog KERN_ERR (pdev_dev pdev) "failed to get gpio register area." [];
            EvLog KERN_ERR (pdev_dev pdev) "could not load sunxi_gpiomem" []] |}.
Proof.
  intros Hok Hbad. destruct k as [p t]. probe_head Hok.
  rewrite (count_check_rejects Hbad).
  cbn -[zeroed_instance Z.quot]. rewrite <- !app_assoc. reflexivity.
Qed.

(** A count within 1..32 is announced, and whatever [probe] does next
    comes after that line. *)
Lemma probe_good_count (k : kernel) :
  kzalloc_ok env = true ->
  0 < count <= 32 ->
  (exists evs,
     trace (final_kernel (sunxi_gpiomem_probe P env pdev k))
     = trace k ++
       [EvKzalloc true;
        EvLog KERN_INFO (pdev_dev pdev) "Initialised: GPIO register area is %d" [count]]
       ++ evs) /\
  header (inst (final_kernel (sunxi_gpiomem_probe P env pdev k)))
  = Some (count, pdev_dev pdev).
Proof.
  intros Hok Hgood. destruct k as [p t]. probe_head Hok.
  rewrite (count_check_accepts Hgood).
  cbn -[zeroed_instance Z.quot Z.gtb Z.leb Z.to_nat probed_instance].
  match goal with
  | |- context [final_kernel (?m ?k0)] =>
      assert (Hs : steady m) by (repeat steady_step);
      destruct (Hs k0) as [[evs Ht] Hh]
  end.
  split.
  - exists evs. rewrite Ht. simpl. rewrite <- !app_assoc. reflexivity.
  - rewrite Hh. reflexivity.
Qed.

(** An index below the count that does not resolve ends [probe] with
    [-ENOENT]: the instance is freed, the closing error line is printed
    through the dangling pointer, and nothing was registered. *)
Lemma probe_missing_resource (k : kernel) (j : nat) :
  kzalloc_ok env = true ->
  0 < count <= 32 ->
  Z.of_nat j < count ->
  resources pdev !! j = None ->
  exists s' j0,
    sunxi_gpiomem_probe P env pdev k
    = Done (- ENOENT)
        {| inst := PFreed s';
           trace := trace k ++
             [EvKzalloc true;
              EvLog KERN_INFO (pdev_dev pdev) "Initialised: GPIO register area is %d"
                [count];
              EvLog KERN_ERR (pdev_dev pdev) "failed to get IO resource area %d"
                [Z.of_nat j0];
              EvKfree;
              EvStaleRead;
              EvLog KERN_ERR (pdev_dev pdev) "could not load sunxi_gpiomem" []] |} /\
    (j0 <= j)%nat /\
    resources pdev !! j0 = None.
Proof.
  intros Hok Hgood Hj Hnone. destruct k as [p t]. probe_head Hok.
  rewrite (count_check_accepts Hgood).
  cbn -[zeroed_instance Z.quot Z.gtb Z.leb Z.to_nat probed_instance].
  match goal with
  | |- context [bind (probe_resources P pdev ?n 0) _
                    {| inst := PLive ?s; trace := ?t0 |}] =>
      destruct (probe_resources_missing P pdev n 0 j s t0)
        as (s' & j0 & Hrun & Hr & Hn0 & Hc & Hd)
  end.
  { rewrite probed_instance_length. lia. }
  { lia. }
  { exact Hnone. }
  exists s', j0. split; [|split; [lia|exact Hn0]].
  unfold bind at 1. rewrite Hrun.
  cbn -[zeroed_instance Z.quot probed_instance]. rewrite Hd.
  rewrite <- !app_assoc. reflexivity.
Qed.

(** When every index below the count resolves and every registration
    call succeeds, [probe] returns 0 with the table filled from the
    resources, slot by slot, and the slots from the count on still zero. *)
Lemma probe_success (k : kernel) :
  kzalloc_ok env = true ->
  0 < count <= 32 ->
  (forall j : nat, Z.of_nat j < count -> is_Some (resources pdev !! j)) ->
  alloc_chrdev_region_ret env = 0 ->
  cdev_add_ret env = 0 ->
  class_create_is_err env = false ->
  device_create_is_err env = false ->
  exists s' logs,
    sunxi_gpiomem_probe P env pdev k
    = Done 0
        {| inst := PLive s';
           trace := trace k ++
             [EvKzalloc true;
              EvLog KERN_INFO (pdev_dev pdev) "Initialised: GPIO register area is %d"
                [count];
              EvAllocChrdevRegion 0; EvCdevInit; EvCdevAdd 0;
              EvClassCreate false; EvDeviceCreate false] ++ logs |} /\
    forallb is_log logs = true /\
    gpio_area_count s' = count /\
    dev s' = pdev_dev pdev /\
    length (gpio_regs_phys s') = 32%nat /\
    (forall j : nat, Z.of_nat j < count ->
       exists res, resources pdev !! j = Some res /\
                   gpio_regs_phys s' !! j = Some (area_of_resource P res)) /\
    (forall j : nat, count <= Z.of_nat j ->
       gpio_regs_phys s' !! j = gpio_regs_phys zeroed_instance !! j).
Proof.
  intros Hok Hgood Hall Hchr Hcdev Hcls Hdev. destruct k as [p t]. probe_head Hok.
  rewrite (count_check_accepts Hgood).
  cbn -[zeroed_instance Z.quot Z.gtb Z.leb Z.to_nat probed_instance].
  match goal with
  | |- context [bind (probe_resources P pdev ?n 0) _
                    {| inst := PLive ?s; trace := ?t0 |}] =>
      destruct (probe_resources_all P pdev n 0 s t0)
        as (s' & Hrun & Hc & Hd & Hl & Hin & Hout)
  end.
  { rewrite probed_instance_length. lia. }
  { intros j Hj. apply Hall. lia. }
  rewrite probed_instance_length in Hl.
  unfold bind at 1. rewrite Hrun. rewrite Hchr, Hcdev, Hcls, Hdev.
  cbn -[zeroed_instance Z.quot Z.to_nat probed_instance log_areas].
  match goal with
  | |- context [bind (log_areas P ?n 0) _ {| inst := PLive ?s; trace := ?t0 |}] =>
      destruct (log_areas_live P n 0 s t0) as (logs & Hlog & Hlogs)
  end.
  { rewrite Hl, Hc. simpl. fold count. lia. }
  exists s', logs. split; [|split; [exact Hlogs|]].
  - unfold bind at 1. rewrite Hlog. cbn. rewrite <- !app_assoc. reflexivity.
  - split; [exact Hc|]. split; [exact Hd|]. split; [exact Hl|]. split.
    + intros j Hj. apply Hin. lia.
    + intros j Hj. rewrite Hout by lia. reflexivity.
Qed.

(** [probe] returns 0 only when nothing went wrong on the way. *)
Lemma probe_returns_zero (k k' : kernel) :
  sunxi_gpiomem_probe P env pdev k = Done 0 k' ->
  kzalloc_ok env = true /\
  0 < count <= 32 /\
  (forall j : nat, Z.of_nat j < count -> is_Some (resources pdev !! j)) /\
  alloc_chrdev_region_ret env = 0 /\
  cdev_add_ret env = 0 /\
  class_create_is_err env = false /\
  device_create_is_err env = false.
Proof.
  intros Hrun. destruct (kzalloc_ok env) eqn:Hok.
  2: { exfalso. revert Hrun. destruct k as [p t].
       unfold sunxi_gpiomem_probe, kzalloc_inst. rewrite Hok. discriminate. }
  split; [reflexivity|].
  destruct (Z_le_gt_dec count 0) as [Hle|Hgt];
    [rewrite probe_bad_count in Hrun by (auto; lia); discriminate|].
  destruct (Z_le_gt_dec count 32) as [Hle|Hbig];
    [|rewrite probe_bad_count in Hrun by (auto; lia); discriminate].
  assert (Hgood : 0 < count <= 32) by lia. split; [exact Hgood|].
  assert (Hall : forall j : nat, Z.of_nat j < count -> is_Some (resources pdev !! j)).
  { intros j Hj. destruct (resources pdev !! j) eqn:Hres; [eauto|].
    destruct (probe_missing_resource k j Hok Hgood Hj Hres) as (s' & j0 & Heq & _).
    rewrite Heq in Hrun. discriminate. }
  split; [exact Hall|].
  revert Hrun. destruct k as [p t]. probe_head Hok.
  rewrite (count_check_accepts Hgood).
  cbn -[zeroed_instance Z.quot Z.gtb Z.leb Z.to_nat probed_instance].
  match goal with
  | |- context [bind (probe_resources P pdev ?n 0) _
                    {| inst := PLive ?s; trace := ?t0 |}] =>
      destruct (probe_resources_all P pdev n 0 s t0) as (s' & Hloop & _)
  end.
  { rewrite probed_instance_length. lia. }
  { intros j Hj. apply Hall. lia. }
  unfold bind at 1. rewrite Hloop.
  cbn -[zeroed_instance Z.quot Z.to_nat probed_instance log_areas].
  destruct (Z.eqb_spec (alloc_chrdev_region_ret env) 0) as [Hchr|Hchr];
    cbn -[zeroed_instance Z.quot Z.to_nat probed_instance log_areas];
    [|intros [= H0]; contradiction].
  destruct (Z.eqb_spec (cdev_add_ret env) 0) as [Hcdev|Hcdev];
    cbn -[zeroed_instance Z.quot Z.to_nat probed_instance log_areas];
    [|intros [= H0]; contradiction].
  destruct (class_create_is_err env);
    cbn -[zeroed_instance Z.quot Z.to_nat probed_instance log_areas];
    [discriminate|].
  destruct (device_create_is_err env);
    cbn -[zeroed_instance Z.quot Z.to_nat probed_instance log_areas];
    [discriminate|].
  intros _. auto.
Qed.

End ProbeFacts.

(** *** The claims about [probe] *)

(** C3: once the instance is allocated, a count of 0 or below, or above
    32, makes [probe] return [-EINVAL] without registering anything; a
    count of exactly 32 gets past the test (the count is announced), and
    [probe] then returns 0 when the 32 resources resolve and registration
    succeeds. *)
Theorem probe_count_validation
    (P : platform) (env : probe_env) (pdev : platform_device) (k : kernel) :
  kzalloc_ok env = true ->
  let count := Z.quot (reg_elems pdev) 4 in
  (count <= 0 \/ 32 < count ->
   exists k' evs,
     sunxi_gpiomem_probe P env pdev k = Done (- EINVAL) k' /\
     trace k' = trace k ++ evs /\ never_available evs = true) /\
  (count = 32 ->
   (exists evs,
      trace (final_kernel (sunxi_gpiomem_probe P env pdev k))
      = trace k ++
        [EvKzalloc true;
         EvLog KERN_INFO (pdev_dev pdev) "Initialised: GPIO register area is %d" [32]]
        ++ evs) /\
   ((forall j : nat, (j < 32)%nat -> is_Some (resources pdev !! j)) ->
    alloc_chrdev_region_ret env = 0 ->
    cdev_add_ret env = 0 ->
    class_create_is_err env = false ->
    device_create_is_err env = false ->
    exists s' k',
      sunxi_gpiomem_probe P env pdev k = Done 0 k' /\
      inst k' = PLive s' /\ gpio_area_count s' = 32)).
Proof.
  intros Hok count. split.
  - intros Hbad. eexists _, _. split; [apply probe_bad_count; assumption|].
    split; reflexivity.
  - intros H32. split.
    + destruct (probe_good_count P env pdev k Hok) as [[evs Ht] _];
        [fold count; lia|].
      fold count in Ht. rewrite H32 in Ht. exists evs. exact Ht.
    + intros Hall Hchr Hcdev Hcls Hdev.
      destruct (probe_success P env pdev k Hok) as (s' & logs & Hrun & _ & Hc & _);
        try assumption.
      { fold count. lia. }
      { intros j Hj. apply Hall. fold count in Hj. lia. }
      eexists s', _. split; [exact Hrun|]. split; [reflexivity|].
      rewrite Hc. exact H32.
Qed.

Lemma probe_count_validation_witness :
  (exists k' evs,
     sunxi_gpiomem_probe sun7i good_env crowded_pdev boot = Done (- EINVAL) k' /\
     trace k' = trace boot ++ evs /\ never_available evs = true) /\
  (exists s' k',
     sunxi_gpiomem_probe sun7i good_env full_pdev boot = Done 0 k' /\
     inst k' = PLive s' /\ gpio_area_count s' = 32).
Proof.
  split.
  - destruct (probe_count_validation sun7i good_env crowded_pdev boot) as [Hbad _];
      [reflexivity|].
    apply Hbad. right. vm_compute. reflexivity.
  - destruct (probe_count_validation sun7i good_env full_pdev boot) as [_ Hfull];
      [reflexivity|].
    destruct Hfull as [_ Hdone]; [reflexivity|].
    apply Hdone; try reflexivity.
    intros j Hj. apply lookup_lt_is_Some_2. simpl. lia.
Defined.

(** C6: with the instance allocated and a count within 1..32, an index
    below the count that does not resolve makes [probe] return [-ENOENT]
    with nothing registered and the instance freed; and whenever [probe]
    returns 0, every slot below the count holds the start and end of the
    resource of the same index. *)
Theorem probe_resource_resolution
    (P : platform) (env : probe_env) (pdev : platform_device) (k : kernel) :
  kzalloc_ok env = true ->
  let count := Z.quot (reg_elems pdev) 4 in
  0 < count <= 32 ->
  (forall j : nat, Z.of_nat j < count -> resources pdev !! j = None ->
   exists s' evs,
     sunxi_gpiomem_probe P env pdev k
     = Done (- ENOENT) {| inst := PFreed s'; trace := trace k ++ evs |} /\
     never_available evs = true) /\
  (forall k', sunxi_gpiomem_probe P env pdev k = Done 0 k' ->
   exists s',
     inst k' = PLive s' /\
     forall j : nat, Z.of_nat j < count ->
       exists res,
         resources pdev !! j = Some res /\
         gpio_regs_phys s' !! j
         = Some {| start := to_ulong P (res_start res);
                   end_ := to_ulong P (res_end res) |}).
Proof.
  intros Hok count Hgood. split.
  - intros j Hj Hnone.
    destruct (probe_missing_resource P env pdev k j Hok Hgood Hj Hnone)
      as (s' & j0 & Hrun & _).
    eexists s', _. split; [exact Hrun|reflexivity].
  - intros k' Hzero.
    destruct (probe_returns_zero P env pdev k k' Hzero)
      as (_ & _ & Hall & Hchr & Hcdev & Hcls & Hdev).
    destruct (probe_success P env pdev k Hok Hgood Hall Hchr Hcdev Hcls Hdev)
      as (s' & logs & Hrun & _ & _ & _ & _ & Hin & _).
    rewrite Hrun in Hzero. injection Hzero as <-.
    exists s'. split; [reflexivity|exact Hin].
Qed.

Lemma probe_resource_resolution_witness :
  (exists s' evs,
     sunxi_gpiomem_probe sun7i good_env short_pdev boot
     = Done (- ENOENT) {| inst := PFreed s'; trace := trace boot ++ evs |} /\
     never_available evs = true) /\
  (exists k', sunxi_gpiomem_probe sun7i good_env pio_pdev boot = Done 0 k') /\
  (forall k', sunxi_gpiomem_probe sun7i good_env pio_pdev boot = Done 0 k' ->
   exists s',
     inst k' = PLive s' /\
     gpio_regs_phys s' !! 0%nat
     = Some {| start := 0x01C20800; end_ := 0x01C20BFF |}).
Proof.
  split; [|split].
  - destruct (probe_resource_resolution sun7i good_env short_pdev boot) as [Hmiss _];
      [reflexivity|vm_compute; split; [reflexivity|discriminate]|].
    apply (Hmiss 1%nat); reflexivity.
  - eexists. vm_compute. reflexivity.
  - intros k' Hzero.
    destruct (probe_resource_resolution sun7i good_env pio_pdev boot) as [_ Hok];
      [reflexivity|vm_compute; split; [reflexivity|discriminate]|].
    destruct (Hok k' Hzero) as (s' & Hlive & Hin).
    destruct (Hin 0%nat) as (res & Hres & Hslot); [reflexivity|].
    injection Hres as <-. exists s'. split; [exact Hlive|exact Hslot].
Defined.

(** The header names an instance behind the pointer. *)
Lemma header_Some (p : inst_ptr) (c : Z) (d : device) :
  header p = Some (c, d) ->
  exists s, inst_contents p = Some s /\ gpio_area_count s = c /\ dev s = d.
Proof.
  unfold header. destruct (inst_contents p) as [s|]; [|discriminate].
  intros [= <- <-]. exists s. auto.
Qed.

(** C7: once the instance is allocated, the count it holds when [probe]
    ends, however it ends, is the element count of [reg] divided by 4,
    rounded towards zero; for a non-negative element count up to three
    elements are left over, and a [probe] that returns 0 has a table of
    exactly that many areas. *)
Theorem probe_area_count_is_elems_quot_4
    (P : platform) (env : probe_env) (pdev : platform_device) (k : kernel) :
  kzalloc_ok env = true ->
  let count := Z.quot (reg_elems pdev) 4 in
  (exists s,
     inst_contents (inst (final_kernel (sunxi_gpiomem_probe P env pdev k))) = Some s /\
     gpio_area_count s = count) /\
  (0 <= reg_elems pdev -> 4 * count <= reg_elems pdev < 4 * count + 4) /\
  (forall k', sunxi_gpiomem_probe P env pdev k = Done 0 k' ->
   exists s, inst k' = PLive s /\ length (region_table s) = Z.to_nat count).
Proof.
  intros Hok count. split; [|split].
  - destruct (Z_le_gt_dec count 0) as [Hle|Hgt];
      [|destruct (Z_le_gt_dec count 32) as [Hle|Hbig]].
    + rewrite probe_bad_count by (auto; fold count; lia).
      exists (probed_instance pdev). split; reflexivity.
    + destruct (probe_good_count P env pdev k Hok) as [_ Hh]; [fold count; lia|].
      apply header_Some in Hh as (s & Hs & Hc & _). exists s. auto.
    + rewrite probe_bad_count by (auto; fold count; lia).
      exists (probed_instance pdev). split; reflexivity.
  - intros Hpos. unfold count.
    pose proof (Z.quot_rem' (reg_elems pdev) 4) as Hqr.
    pose proof (Z.rem_bound_pos (reg_elems pdev) 4 Hpos ltac:(lia)) as Hr.
    lia.
  - intros k' Hzero.
    destruct (probe_returns_zero P env pdev k k' Hzero)
      as (_ & Hgood & Hall & Hchr & Hcdev & Hcls & Hdev).
    destruct (probe_success P env pdev k Hok Hgood Hall Hchr Hcdev Hcls Hdev)
      as (s' & logs & Hrun & _ & Hc & _ & Hl & _).
    rewrite Hrun in Hzero. injection Hzero as <-.
    exists s'. split; [reflexivity|].
    unfold region_table. rewrite length_take, Hl, Hc. fold count. lia.
Qed.

Lemma probe_area_count_is_elems_quot_4_witness :
  exists k' s,
    sunxi_gpiomem_probe sun7i good_env ragged_pdev boot = Done 0 k' /\
    inst k' = PLive s /\
    gpio_area_count s = 1 /\
    length (region_table s) = 1%nat.
Proof.
  destruct (probe_area_count_is_elems_quot_4 sun7i good_env ragged_pdev boot)
    as ((s & Hs & Hc) & _ & Hlen); [reflexivity|].
  assert (Hrun : exists k', sunxi_gpiomem_probe sun7i good_env ragged_pdev boot
                            = Done 0 k') by (eexists; vm_compute; reflexivity).
  destruct Hrun as [k' Hrun]. destruct (Hlen k' Hrun) as (s1 & Hlive & Hl).
  rewrite Hrun in Hs. simpl in Hs. rewrite Hlive in Hs. injection Hs as ->.
  exists k', s. split; [exact Hrun|]. split; [exact Hlive|].
  split; [exact Hc|exact Hl].
Defined.

(** C10, on the code: when [kzalloc] returns [NULL], [probe] jumps to
    [failed_inst_alloc] with [inst] null, and the [dev_err] there reads
    [inst->dev]: the call faults on a null pointer instead of returning
    [-ENOMEM]. *)
Theorem probe_alloc_failure_null_deref
    (P : platform) (chr cdev : Z) (cls dvc : bool) (pdev : platform_device)
    (k : kernel) :
  sunxi_gpiomem_probe P
    {| kzalloc_ok := false; alloc_chrdev_region_ret := chr; cdev_add_ret := cdev;
       class_create_is_err := cls; device_create_is_err := dvc |} pdev k
  = Oops NullDeref {| inst := PNull; trace := trace k ++ [EvKzalloc false] |}.
Proof. destruct k as [p t]. reflexivity. Qed.

(** * Further properties of the driver *)

(** ** [mmap]: what the test lets through *)

Section MmapMore.

Variable P : platform.

(** A wider range finds an area whenever a narrower one does. *)
Lemma find_area_widen (i : sunxi_gpiomem_instance) (a b a' b' : Z) :
  a' <= a -> b <= b' ->
  (exists m, find_area i a b = Found m) ->
  exists m, find_area i a' b' = Found m.
Proof.
  intros Ha Hb. unfold find_area. rewrite !scan_areas_found_iff.
  intros (j & r & Hj & Hl & Hm). exists j, r. split; [exact Hj|].
  split; [exact Hl|]. apply area_matches_iff in Hm. apply area_matches_iff. lia.
Qed.

Lemma mmap_admitted_found (f : file) (vma : vm_area_struct) (k : kernel) :
  mmap_admitted P f vma k = true <->
  exists i m, inst_contents (inst k) = Some i /\
              find_area i (mmap_start P vma) (mmap_end P vma) = Found m.
Proof.
  rewrite mmap_admitted_eq. destruct (inst_contents (inst k)) as [i|].
  - destruct (find_area i _ _) as [m| |] eqn:Hf.
    + split; [intros _; exists i, m; auto|reflexivity].
    + split; [discriminate|]. intros (i' & m & [= <-] & H). congruence.
    + split; [discriminate|]. intros (i' & m & [= <-] & H). congruence.
  - split; [discriminate|]. intros (i' & m & [=] & _).
Qed.

(** The decision is read off the request's first byte and last byte. *)
Lemma mmap_admitted_ext (f f' : file) (vma vma' : vm_area_struct) (k : kernel) :
  mmap_start P vma' = mmap_start P vma ->
  mmap_end P vma' = mmap_end P vma ->
  mmap_admitted P f' vma' k = mmap_admitted P f vma k.
Proof. intros Hs He. rewrite !mmap_admitted_eq, Hs, He. reflexivity. Qed.

(** What one call adds to the [remap_pfn_range] calls of the trace. *)
Lemma mmap_remap_calls (f : file) (vma : vm_area_struct) (k : kernel) :
  remap_calls (trace (final_kernel (sunxi_gpiomem_mmap P f vma k)))
  = remap_calls (trace k)
    ++ (if mmap_admitted P f vma k then [mmap_remap_call P f vma] else []).
Proof.
  rewrite mmap_admitted_eq. destruct (inst k) as [|i|i] eqn:Hi; simpl.
  - unfold sunxi_gpiomem_mmap, bind, read_inst, bind, get_inst_ptr.
    rewrite Hi. simpl. rewrite app_nil_r. reflexivity.
  - rewrite (mmap_live P f vma k i Hi).
    destruct (find_area i _ _); simpl; rewrite ?app_nil_r; try reflexivity.
    unfold remap_calls. rewrite omap_app. reflexivity.
  - rewrite (mmap_freed P f vma k i Hi).
    destruct (find_area i _ _); simpl; unfold remap_calls;
      rewrite ?omap_app; simpl; rewrite ?app_nil_r; reflexivity.
Qed.

End MmapMore.

(** X1: [mmap] is monotone in the requested range.  A request that is
    admitted stays admitted when its range is widened at either end, so
    any range that covers a registered area can be mapped, whatever else
    it covers. *)
Theorem mmap_wider_request_admitted
    (P : platform) (f f' : file) (vma vma' : vm_area_struct) (k : kernel) :
  mmap_start P vma' <= mmap_start P vma ->
  mmap_end P vma <= mmap_end P vma' ->
  mmap_admitted P f vma k = true ->
  mmap_admitted P f' vma' k = true.
Proof.
  intros Hs He. rewrite !mmap_admitted_found.
  intros (i & m & Hi & Hf).
  destruct (find_area_widen i _ _ _ _ Hs He (ex_intro _ m Hf)) as [m' Hf'].
  exists i, m'. auto.
Qed.

Lemma mmap_wider_request_admitted_witness :
  mmap_admitted sun7i any_file pio_megabyte pio_kernel = true.
Proof.
  apply (mmap_wider_request_admitted sun7i any_file any_file pio_page pio_megabyte
           pio_kernel).
  - vm_compute. discriminate.
  - vm_compute. discriminate.
  - reflexivity.
Defined.

(** X2: the test is made on the byte address truncated to an
    [unsigned long], the mapping on the page number as given.  With
    [0 <= PAGE_SHIFT <= BITS_PER_LONG], adding any multiple of
    [2 ^ (BITS_PER_LONG - PAGE_SHIFT)] to the page offset leaves the
    decision unchanged, and when the request is admitted the one
    [remap_pfn_range] call the driver then makes carries the shifted
    page number. *)
Theorem mmap_pgoff_wraps_in_test_only
    (P : platform) (f : file) (vma : vm_area_struct) (k : kernel) (n : Z) :
  0 <= PAGE_SHIFT P <= BITS_PER_LONG P ->
  let vma' := set_vm_pgoff vma
                (vm_pgoff vma + n * 2 ^ (BITS_PER_LONG P - PAGE_SHIFT P)) in
  mmap_start P vma' = mmap_start P vma /\
  mmap_end P vma' = mmap_end P vma /\
  mmap_admitted P f vma' k = mmap_admitted P f vma k /\
  (mmap_admitted P f vma k = true ->
   exists c,
     remap_calls (trace (final_kernel (sunxi_gpiomem_mmap P f vma' k)))
     = remap_calls (trace k) ++ [c] /\
     rc_pfn c = vm_pgoff vma + n * 2 ^ (BITS_PER_LONG P - PAGE_SHIFT P) /\
     rc_size c = vma_size P vma /\
     rc_addr c = vm_start vma).
Proof.
  intros Hps vma'.
  assert (Hs : mmap_start P vma' = mmap_start P vma).
  { unfold mmap_start, to_ulong, vma'. simpl.
    rewrite !Z.shiftl_mul_pow2 by lia.
    rewrite Z.mul_add_distr_r, <- Z.mul_assoc, <- Z.pow_add_r by lia.
    replace (BITS_PER_LONG P - PAGE_SHIFT P + PAGE_SHIFT P) with (BITS_PER_LONG P)
      by lia.
    apply Z_mod_plus_full. }
  assert (He : mmap_end P vma' = mmap_end P vma).
  { unfold mmap_end. rewrite Hs. reflexivity. }
  assert (Hadm : mmap_admitted P f vma' k = mmap_admitted P f vma k)
    by (apply mmap_admitted_ext; assumption).
  split; [exact Hs|]. split; [exact He|]. split; [exact Hadm|].
  intros Ht. exists (mmap_remap_call P f vma').
  rewrite mmap_remap_calls, Hadm, Ht. repeat split.
Qed.

Lemma mmap_pgoff_wraps_in_test_only_witness :
  mmap_admitted sun7i any_file aliased_page pio_kernel = true /\
  exists c,
    remap_calls (trace (final_kernel
                          (sunxi_gpiomem_mmap sun7i any_file aliased_page pio_kernel)))
    = [c] /\
    rc_pfn c = 0x101C20.
Proof.
  destruct (mmap_pgoff_wraps_in_test_only sun7i any_file pio_page pio_kernel 1)
    as (_ & _ & Hadm & Hcall); [vm_compute; split; discriminate|].
  split; [etransitivity; [exact Hadm|reflexivity]|].
  destruct Hcall as (c & Htrace & Hpfn & _); [reflexivity|].
  exists c. split; [exact Htrace|exact Hpfn].
Defined.

(** X3: the decision depends on the request only through its page
    offset and its length: where the mapping sits in the address space
    of the process, the file and the protection play no part. *)
Theorem mmap_decision_by_offset_and_length
    (P : platform) (f f' : file) (vma vma' : vm_area_struct) (k : kernel) :
  vm_pgoff vma' = vm_pgoff vma ->
  vma_size P vma' = vma_size P vma ->
  mmap_admitted P f' vma' k = mmap_admitted P f vma k.
Proof.
  intros Hp Hsz.
  assert (Hs : mmap_start P vma' = mmap_start P vma)
    by (unfold mmap_start; rewrite Hp; reflexivity).
  apply mmap_admitted_ext; [exact Hs|].
  rewrite <- !mmap_end_from_size, Hs, Hsz. reflexivity.
Qed.

Lemma mmap_decision_by_offset_and_length_witness :
  mmap_admitted sun7i {| f_flags := 0 |} pio_page_elsewhere pio_kernel = true.
Proof.
  rewrite (mmap_decision_by_offset_and_length sun7i any_file {| f_flags := 0 |}
             pio_page pio_page_elsewhere pio_kernel); reflexivity.
Defined.

(** X4: over any sequence of [mmap] calls, [remap_pfn_range] is called
    once for each admitted request, in order, with that request's own
    arguments, and never for a denied one. *)
Theorem run_mmaps_maps_admitted_requests_only
    (P : platform) (reqs : list (file * vm_area_struct)) (k : kernel) :
  remap_calls (trace (run_mmaps P reqs k))
  = remap_calls (trace k)
    ++ map (fun fv => mmap_remap_call P (fst fv) (snd fv))
         (List.filter (fun fv => mmap_admitted P (fst fv) (snd fv) k) reqs).
Proof.
  revert k. induction reqs as [|[f vma] rest IH]; intros k; simpl.
  - rewrite app_nil_r. reflexivity.
  - rewrite IH, mmap_remap_calls.
    assert (Hsame : forall fv : file * vm_area_struct,
              mmap_admitted P (fst fv) (snd fv)
                (final_kernel (sunxi_gpiomem_mmap P f vma k))
              = mmap_admitted P (fst fv) (snd fv) k).
    { intros fv. rewrite !mmap_admitted_eq, mmap_keeps_inst. reflexivity. }
    rewrite (List.filter_ext _ _ Hsame).
    destruct (mmap_admitted P f vma k); simpl;
      rewrite <- ?app_assoc; reflexivity.
Qed.

(** ** [probe]: every way out *)

Section LedgerFacts.

Lemma audit_app (a b : list remove_call) (l : ledger) :
  audit (a ++ b) l
  = match audit a l with Some l' => audit b l' | None => None end.
Proof.
  revert l. induction a as [|c a IH]; intros l; simpl; [reflexivity|].
  destruct (ledger_step l c); [apply IH|reflexivity].
Qed.

(** Log lines move nothing in or out of the ledger. *)
Lemma audit_logs (logs : list event) (l : ledger) :
  forallb is_log logs = true -> audit (map RmCall logs) l = Some l.
Proof.
  revert l. induction logs as [|e logs IH]; intros l; simpl; [reflexivity|].
  intros H. apply andb_true_iff in H as [He Hl].
  destruct e; try discriminate. simpl. apply IH. exact Hl.
Qed.

Lemma logs_not_stale (logs : list event) :
  forallb is_log logs = true -> existsb is_stale_read logs = false.
Proof.
  induction logs as [|e logs IH]; simpl; [reflexivity|].
  intros H. apply andb_true_iff in H as [He Hl].
  destruct e; try discriminate. simpl. apply IH. exact Hl.
Qed.

End LedgerFacts.

(** Division by 4 towards zero, in terms of the element count. *)
Lemma quot_4_bounds (x : Z) :
  (Z.quot x 4 <= 0 <-> x < 4) /\ (32 < Z.quot x 4 <-> 132 <= x).
Proof.
  pose proof (Z.quot_rem' x 4) as Hqr.
  destruct (Z_lt_le_dec x 0) as [Hneg|Hpos].
  - pose proof (Z.rem_bound_pos_neg x 4 ltac:(lia) ltac:(lia)) as Hr. lia.
  - pose proof (Z.rem_bound_pos x 4 Hpos ltac:(lia)) as Hr. lia.
Qed.

Section ProbeMore.

Variable P : platform.
Variable env : probe_env.
Variable pdev : platform_device.

Local Abbreviation count := (Z.quot (reg_elems pdev) 4).

Ltac probe_enter Hok :=
  unfold sunxi_gpiomem_probe, kzalloc_inst; rewrite Hok;
  cbn -[zeroed_instance Z.quot Z.gtb Z.leb Z.to_nat];
  fold (probed_instance pdev).

Ltac probe_cbn :=
  cbn -[zeroed_instance Z.quot Z.gtb Z.leb Z.to_nat probed_instance log_areas].

(** When every index below the count resolves, [probe] returns, and
    what it returns, holds and leaves behind follows from the four
    registration results alone. *)
Lemma probe_resolved (k : kernel) :
  kzalloc_ok env = true ->
  0 < count <= 32 ->
  (forall j : nat, Z.of_nat j < count -> is_Some (resources pdev !! j)) ->
  let r := if negb (alloc_chrdev_region_ret env =? 0) then alloc_chrdev_region_ret env
           else if negb (cdev_add_ret env =? 0) then cdev_add_ret env
           else if class_create_is_err env then 1
           else if device_create_is_err env then 1
           else 0 in
  exists s' evs,
    sunxi_gpiomem_probe P env pdev k
    = Done r {| inst := if r =? 0 then PLive s' else PFreed s';
                trace := trace k ++ evs |} /\
    audit (map RmCall evs) no_holdings
    = Some (if r =? 0 then all_holdings else no_holdings) /\
    existsb is_stale_read evs = negb (r =? 0).
Proof.
  intros Hok Hgood Hall. simpl.
  destruct (sunxi_gpiomem_probe P env pdev k) as [r0 k0|e0 k0] eqn:Hp;
    revert Hp; destruct k as [p t]; probe_enter Hok;
    rewrite (count_check_accepts pdev Hgood);
    cbn -[zeroed_instance Z.quot Z.gtb Z.leb Z.to_nat probed_instance];
    match goal with
    | |- context [bind (probe_resources P pdev ?n 0) _
                      {| inst := PLive ?s; trace := ?t0 |}] =>
        destruct (probe_resources_all P pdev n 0 s t0)
          as (s' & Hloop & Hc & _ & Hl & _);
        [rewrite probed_instance_length; lia
        |intros j Hj; apply Hall; lia
        |rewrite probed_instance_length in Hl]
    end;
    unfold bind at 1; rewrite Hloop; probe_cbn;
    (destruct (Z.eqb_spec (alloc_chrdev_region_ret env) 0) as [Hchr|Hchr];
     [rewrite ?Hchr; probe_cbn;
      destruct (Z.eqb_spec (cdev_add_ret env) 0) as [Hcdev|Hcdev];
      [rewrite ?Hcdev; probe_cbn;
       destruct (class_create_is_err env); probe_cbn;
       [|destruct (device_create_is_err env); probe_cbn]
      |probe_cbn]
     |probe_cbn]).
  all: try match goal with
    | |- context [bind (log_areas P ?n 0) _ {| inst := PLive ?s; trace := ?t0 |}] =>
        destruct (log_areas_live P n 0 s t0) as (logs & Hlog & Hlogs);
        [rewrite Hl, Hc; simpl; lia|];
        unfold bind at 1; rewrite Hlog; probe_cbn
    end.
  all: try discriminate.
  all: intros [= <- <-].
  (* class_create failed *)
  1: { exists s'. eexists. split; [rewrite <- !app_assoc; reflexivity|].
       split; reflexivity. }
  (* device_create failed *)
  1: { exists s'. eexists. split; [rewrite <- !app_assoc; reflexivity|].
       split; reflexivity. }
  (* everything succeeded *)
  1: { exists s'. eexists. split; [rewrite <- !app_assoc; reflexivity|].
       simpl. rewrite audit_logs by exact Hlogs.
       rewrite logs_not_stale by exact Hlogs. split; reflexivity. }
  (* cdev_add failed *)
  1: { apply Z.eqb_neq in Hcdev as Hcdev'.
       exists s'. eexists. rewrite Hcdev'.
       split; [rewrite <- !app_assoc; reflexivity|].
       simpl. rewrite Hcdev'. split; reflexivity. }
  (* alloc_chrdev_region failed *)
  apply Z.eqb_neq in Hchr as Hchr'.
  exists s'. eexists. rewrite Hchr'.
  split; [rewrite <- !app_assoc; reflexivity|].
  simpl. rewrite Hchr'. split; reflexivity.
Qed.

End ProbeMore.

(** X5: once [kzalloc] succeeded, [probe] always returns: the loops
    stay inside the 32-slot array and no pointer it reads is null.  Its
    status is decided by the first test that fails, in the order count,
    resources, [alloc_chrdev_region], [cdev_add], [class_create],
    [device_create]; the last two report failure as 1, not as a negative
    error number. *)
Theorem probe_returns_status
    (P : platform) (env : probe_env) (pdev : platform_device) (k : kernel) :
  kzalloc_ok env = true ->
  exists k', sunxi_gpiomem_probe P env pdev k = Done (probe_status env pdev) k'.
Proof.
  intros Hok. unfold probe_status.
  destruct ((Z.quot (reg_elems pdev) 4 >? 32) || (Z.quot (reg_elems pdev) 4 <=? 0))
    eqn:Hcheck.
  - apply orb_true_iff in Hcheck. rewrite Z.gtb_gt, Z.leb_le in Hcheck.
    eexists. apply probe_bad_count; [exact Hok|lia].
  - apply orb_false_iff in Hcheck as [Hgt Hle].
    rewrite Z.gtb_ltb in Hgt. apply Z.ltb_ge in Hgt. apply Z.leb_gt in Hle.
    assert (Hgood : 0 < Z.quot (reg_elems pdev) 4 <= 32) by lia.
    destruct (Nat.ltb_spec (length (resources pdev))
                (Z.to_nat (Z.quot (reg_elems pdev) 4))) as [Hshort|Hlong].
    + destruct (probe_missing_resource P env pdev k (length (resources pdev))
                  Hok Hgood) as (s' & j0 & Hrun & _); [lia| |].
      { apply lookup_ge_None. lia. }
      eexists. exact Hrun.
    + destruct (probe_resolved P env pdev k Hok Hgood) as (s' & evs & Hrun & _).
      { intros j Hj. apply lookup_lt_is_Some_2. lia. }
      eexists. exact Hrun.
Qed.

Lemma probe_returns_status_witness :
  exists k', sunxi_gpiomem_probe sun7i no_class_env pio_pdev boot = Done 1 k'.
Proof.
  apply (probe_returns_status sun7i no_class_env pio_pdev boot). reflexivity.
Defined.

(** X6: a [reg] property of fewer than 4 or of 132 and more elements
    (an error number from the count helper included) makes [probe]
    return [-EINVAL] with the instance still allocated: this way out
    jumps past the [kfree], and the instance is all the driver holds. *)
Theorem probe_bad_reg_keeps_instance
    (P : platform) (env : probe_env) (pdev : platform_device) (k : kernel) :
  kzalloc_ok env = true ->
  reg_elems pdev < 4 \/ 132 <= reg_elems pdev ->
  exists evs,
    sunxi_gpiomem_probe P env pdev k
    = Done (- EINVAL)
        {| inst := PLive (probed_instance pdev); trace := trace k ++ evs |} /\
    audit (map RmCall evs) no_holdings = Some inst_only.
Proof.
  intros Hok Hbad. destruct (quot_4_bounds (reg_elems pdev)) as [Hlo Hhi].
  eexists. split; [apply probe_bad_count; [exact Hok|tauto]|reflexivity].
Qed.

Lemma probe_bad_reg_keeps_instance_witness :
  exists evs,
    sunxi_gpiomem_probe sun7i good_env regless_pdev boot
    = Done (- EINVAL)
        {| inst := PLive (probed_instance regless_pdev); trace := trace boot ++ evs |} /\
    audit (map RmCall evs) no_holdings = Some inst_only.
Proof.
  apply (probe_bad_reg_keeps_instance sun7i good_env regless_pdev boot);
    [reflexivity|left; reflexivity].
Defined.

(** X7: with 4 to 131 [reg] elements, [probe] either returns 0 holding
    the instance, the device number region, the cdev, the class and the
    device, or returns non-zero having given back everything it took;
    on each of these failing ways out the instance is freed before the
    closing [dev_err] reads [inst->dev], while a successful [probe] never
    reads through a freed pointer. *)
Theorem probe_gives_back_on_failure
    (P : platform) (env : probe_env) (pdev : platform_device) (k : kernel) :
  kzalloc_ok env = true ->
  4 <= reg_elems pdev < 132 ->
  exists r s' evs,
    sunxi_gpiomem_probe P env pdev k
    = Done r {| inst := if r =? 0 then PLive s' else PFreed s';
                trace := trace k ++ evs |} /\
    audit (map RmCall evs) no_holdings
    = Some (if r =? 0 then all_holdings else no_holdings) /\
    existsb is_stale_read evs = negb (r =? 0).
Proof.
  intros Hok Hreg. destruct (quot_4_bounds (reg_elems pdev)) as [Hlo Hhi].
  assert (Hgood : 0 < Z.quot (reg_elems pdev) 4 <= 32) by lia.
  destruct (Nat.ltb_spec (length (resources pdev))
              (Z.to_nat (Z.quot (reg_elems pdev) 4))) as [Hshort|Hlong].
  - destruct (probe_missing_resource P env pdev k (length (resources pdev))
                Hok Hgood) as (s' & j0 & Hrun & _); [lia| |].
    { apply lookup_ge_None. lia. }
    exists (- ENOENT), s'. eexists. split; [exact Hrun|]. split; reflexivity.
  - destruct (probe_resolved P env pdev k Hok Hgood) as (s' & evs & Hrun);
      [|eexists _, s', evs; exact Hrun].
    intros j Hj. apply lookup_lt_is_Some_2. lia.
Qed.

Lemma probe_gives_back_on_failure_witness :
  exists s' evs,
    sunxi_gpiomem_probe sun7i no_class_env pio_pdev boot
    = Done 1 {| inst := PFreed s'; trace := trace boot ++ evs |} /\
    audit (map RmCall evs) no_holdings = Some no_holdings /\
    existsb is_stale_read evs = true.
Proof.
  destruct (probe_gives_back_on_failure sun7i no_class_env pio_pdev boot)
    as (r & s' & evs & Hrun & Haudit & Hstale);
    [reflexivity|simpl; lia|].
  assert (Hst : exists k1, sunxi_gpiomem_probe sun7i no_class_env pio_pdev boot
                           = Done 1 k1) by (eexists; vm_compute; reflexivity).
  destruct Hst as [k1 Hst]. rewrite Hst in Hrun. injection Hrun as Hr Hk.
  subst r. exists s', evs. split; [rewrite Hst, Hk; reflexivity|].
  split; [exact Haudit|exact Hstale].
Defined.

(** ** From [probe] to the file operations, and to [remove] *)

Lemma events_of_app (a b : list remove_call) :
  events_of (a ++ b) = events_of a ++ events_of b.
Proof. apply omap_app. Qed.

Lemma events_of_calls (evs : list event) : events_of (map RmCall evs) = evs.
Proof.
  induction evs as [|e evs IH]; [reflexivity|].
  simpl. unfold events_of in *. simpl. rewrite IH. reflexivity.
Qed.

(** What a [probe] that returned 0 leaves behind. *)
Lemma probe_zero_state
    (P : platform) (env : probe_env) (pdev : platform_device) (k k' : kernel) :
  sunxi_gpiomem_probe P env pdev k = Done 0 k' ->
  0 < Z.quot (reg_elems pdev) 4 <= 32 /\
  exists s' evs,
    k' = {| inst := PLive s'; trace := trace k ++ evs |} /\
    audit (map RmCall evs) no_holdings = Some all_holdings /\
    existsb is_stale_read evs = false /\
    gpio_area_count s' = Z.quot (reg_elems pdev) 4 /\
    dev s' = pdev_dev pdev /\
    length (gpio_regs_phys s') = 32%nat /\
    (forall j : nat, Z.of_nat j < Z.quot (reg_elems pdev) 4 ->
       exists res, resources pdev !! j = Some res /\
                   gpio_regs_phys s' !! j = Some (area_of_resource P res)).
Proof.
  intros Hzero.
  destruct (probe_returns_zero P env pdev k k' Hzero)
    as (Hok & Hgood & Hall & Hchr & Hcdev & Hcls & Hdev).
  split; [exact Hgood|].
  destruct (probe_success P env pdev k Hok Hgood Hall Hchr Hcdev Hcls Hdev)
    as (s' & logs & Hrun & Hlogs & Hc & Hd & Hl & Hin & _).
  rewrite Hrun in Hzero. injection Hzero as <-.
  exists s'. eexists. split; [reflexivity|].
  split; [|split; [|auto]].
  - simpl. apply audit_logs. exact Hlogs.
  - simpl. apply logs_not_stale. exact Hlogs.
Qed.

(** X8: after a [probe] that returned 0, [mmap] always returns, and it
    admits a request exactly when one of the first [count] memory
    resources of the device, with its bounds converted to
    [unsigned long], lies inside the requested range; resources from
    index [count] on play no part. *)
Theorem probe_then_mmap
    (P : platform) (env : probe_env) (pdev : platform_device) (k k' : kernel)
    (f : file) (vma : vm_area_struct) :
  sunxi_gpiomem_probe P env pdev k = Done 0 k' ->
  (exists r vma' k'', sunxi_gpiomem_mmap P f vma k' = Done (r, vma') k'') /\
  (mmap_admitted P f vma k' = true <->
   exists (j : nat) (res : resource),
     Z.of_nat j < Z.quot (reg_elems pdev) 4 /\
     resources pdev !! j = Some res /\
     mmap_start P vma <= to_ulong P (res_start res) /\
     to_ulong P (res_end res) <= mmap_end P vma).
Proof.
  intros Hzero.
  destruct (probe_zero_state P env pdev k k' Hzero)
    as (Hgood & s' & evs & -> & _ & _ & Hc & _ & Hl & Hin).
  set (k1 := {| inst := PLive s'; trace := trace k ++ evs |}).
  split.
  - rewrite (mmap_live P f vma k1 s' eq_refl).
    pose proof (scan_areas_in_bounds (gpio_regs_phys s') (mmap_start P vma)
                  (mmap_end P vma) (Z.to_nat (gpio_area_count s')) 0) as Hb.
    fold (find_area s' (mmap_start P vma) (mmap_end P vma)) in Hb.
    destruct (find_area s' _ _); [| |exfalso; apply Hb; [lia|reflexivity]].
    + simpl. eexists _, _, _. reflexivity.
    + eexists _, _, _. reflexivity.
  - rewrite (mmap_admitted_live P f vma k1 s' eq_refl).
    unfold find_area. rewrite scan_areas_found_iff, Hc. split.
    + intros (j & r & Hj & Hlk & Hm).
      destruct (Hin j) as (res & Hres & Hslot); [lia|].
      rewrite Hslot in Hlk. injection Hlk as <-.
      apply area_matches_iff in Hm. exists j, res. split; [lia|]. auto.
    + intros (j & res & Hj & Hres & Hm).
      destruct (Hin j Hj) as (res' & Hres' & Hslot).
      rewrite Hres in Hres'. injection Hres' as <-.
      exists j, (area_of_resource P res). split; [lia|]. split; [exact Hslot|].
      apply area_matches_iff. exact Hm.
Qed.

Lemma probe_then_mmap_witness :
  exists k',
    sunxi_gpiomem_probe sun7i good_env pio_pdev boot = Done 0 k' /\
    mmap_admitted sun7i any_file pio_page k' = true /\
    mmap_admitted sun7i any_file other_page k' = false.
Proof.
  assert (Hrun : exists k', sunxi_gpiomem_probe sun7i good_env pio_pdev boot
                            = Done 0 k') by (eexists; vm_compute; reflexivity).
  destruct Hrun as [k' Hrun]. exists k'. split; [exact Hrun|].
  destruct (probe_then_mmap sun7i good_env pio_pdev boot k' any_file pio_page Hrun)
    as [_ Hadm].
  destruct (probe_then_mmap sun7i good_env pio_pdev boot k' any_file other_page Hrun)
    as [_ Hden].
  split.
  - apply Hadm. exists 0%nat, {| res_start := 0x01C20800; res_end := 0x01C20BFF |}.
    split; [reflexivity|]. split; [reflexivity|]. split; vm_compute; discriminate.
  - apply not_true_is_false. intros Ht. apply Hden in Ht.
    destruct Ht as (j & res & Hj & Hres & Hs & _).
    destruct j as [|j]; [|vm_compute in Hj; destruct j; discriminate].
    injection Hres as <-. vm_compute in Hs. apply Hs. reflexivity.
Defined.

(** X9: [remove] after a [probe] that returned 0 returns 0 after
    [kfree], [device_destroy], [class_destroy], [cdev_del] and
    [unregister_chrdev_region], in this order, and a last log line for
    the device it read before the [kfree].  Over [probe] and [remove]
    together everything taken is given back, the class only after its
    device, and nothing is read through a freed pointer. *)
Theorem remove_after_probe
    (P : platform) (env : probe_env) (pdev : platform_device) (k k' : kernel) :
  sunxi_gpiomem_probe P env pdev k = Done 0 k' ->
  exists td s' calls,
    sunxi_gpiomem_remove pdev k' = inr (0, td) /\
    td_inst td = PFreed s' /\
    td_calls td
    = map RmCall (trace k') ++
      [RmCall EvKfree; RmDeviceDestroy; RmCall EvClassDestroy; RmCall EvCdevDel;
       RmCall EvUnregisterChrdevRegion;
       RmCall (EvLog KERN_INFO (pdev_dev pdev) "GPIO mem driver removed - OK" [])] /\
    td_calls td = map RmCall (trace k) ++ calls /\
    audit calls no_holdings = Some no_holdings /\
    existsb is_stale_read (events_of calls) = false.
Proof.
  intros Hzero.
  destruct (probe_zero_state P env pdev k k' Hzero)
    as (_ & s' & evs & -> & Haudit & Hstale & _ & Hd & _).
  eexists _, s', _. split; [reflexivity|]. split; [reflexivity|].
  simpl. rewrite Hd, <- !app_assoc. simpl. split; [reflexivity|].
  rewrite map_app, <- app_assoc. split; [reflexivity|]. split.
  - rewrite audit_app, Haudit. reflexivity.
  - rewrite events_of_app, events_of_calls, existsb_app, Hstale. reflexivity.
Qed.

Lemma remove_after_probe_witness :
  exists k' td s',
    sunxi_gpiomem_probe sun7i good_env pio_pdev boot = Done 0 k' /\
    sunxi_gpiomem_remove pio_pdev k' = inr (0, td) /\
    td_inst td = PFreed s' /\
    audit (td_calls td) no_holdings = Some no_holdings.
Proof.
  assert (Hrun : exists k', sunxi_gpiomem_probe sun7i good_env pio_pdev boot
                            = Done 0 k') by (eexists; vm_compute; reflexivity).
  destruct Hrun as [k' Hrun].
  destruct (remove_after_probe sun7i good_env pio_pdev boot k' Hrun)
    as (td & s' & calls & Hrm & Hfreed & _ & Hcalls & Haudit & _).
  exists k', td, s'. split; [exact Hrun|]. split; [exact Hrm|].
  split; [exact Hfreed|]. rewrite Hcalls. exact Haudit.
Defined.

(** X10: [remove] frees the instance and leaves [inst] pointing at it:
    the pointer is not reset.  An [mmap] issued afterwards, through a
    file that was opened before, starts by reading through the dangling
    pointer, whatever the freed storage holds by then. *)
Theorem mmap_after_remove_reads_freed_instance
    (P : platform) (env : probe_env) (pdev : platform_device) (k k' : kernel) :
  sunxi_gpiomem_probe P env pdev k = Done 0 k' ->
  exists td s',
    sunxi_gpiomem_remove pdev k' = inr (0, td) /\
    td_inst td = PFreed s' /\
    forall (garbage : sunxi_gpiomem_instance) (f : file) (vma : vm_area_struct),
      let k2 := {| inst := PFreed garbage; trace := trace (kernel_after_remove td) |} in
      trace (final_kernel (sunxi_gpiomem_mmap P f vma k2)) !! length (trace k2)
      = Some EvStaleRead.
Proof.
  intros Hzero.
  destruct (probe_zero_state P env pdev k k' Hzero)
    as (_ & s' & evs & -> & _).
  eexists _, s'. split; [reflexivity|]. split; [reflexivity|].
  intros garbage f vma k2.
  rewrite (mmap_freed P f vma k2 garbage eq_refl).
  destruct (find_area garbage _ _); simpl;
    rewrite <- ?app_assoc; apply list_lookup_middle; reflexivity.
Qed.

Lemma mmap_after_remove_reads_freed_instance_witness :
  exists k' td s',
    sunxi_gpiomem_probe sun7i good_env pio_pdev boot = Done 0 k' /\
    sunxi_gpiomem_remove pio_pdev k' = inr (0, td) /\
    td_inst td = PFreed s' /\
    trace (final_kernel
             (sunxi_gpiomem_mmap sun7i any_file pio_page
                {| inst := PFreed zeroed_instance;
                   trace := trace (kernel_after_remove td) |}))
      !! length (trace (kernel_after_remove td))
    = Some EvStaleRead.
Proof.
  assert (Hrun : exists k', sunxi_gpiomem_probe sun7i good_env pio_pdev boot
                            = Done 0 k') by (eexists; vm_compute; reflexivity).
  destruct Hrun as [k' Hrun].
  destruct (mmap_after_remove_reads_freed_instance sun7i good_env pio_pdev boot k'
              Hrun) as (td & s' & Hrm & Hfreed & Hread).
  exists k', td, s'. split; [exact Hrun|]. split; [exact Hrm|].
  split; [exact Hfreed|]. apply Hread.
Defined.

(** ** The session gate over a run of calls *)

Lemma session_call_live (c : session_call) (i : sunxi_gpiomem_instance)
    (t : list event) :
  exists logs,
    match c with
    | CallOpen ino f => sunxi_gpiomem_open ino f
    | CallRelease ino f => sunxi_gpiomem_release ino f
    end {| inst := PLive i; trace := t |}
    = Done (if iminor (session_inode c) =? DEVICE_MINOR then 0 else - ENXIO)
        {| inst := PLive i; trace := t ++ logs |} /\
    forallb is_log logs = true.
Proof.
  destruct c as [ino f|ino f]; simpl;
    unfold sunxi_gpiomem_open, sunxi_gpiomem_release;
    destruct (Z.eqb_spec (iminor ino) DEVICE_MINOR) as [He|Hne]; simpl.
  - exists [EvLog KERN_INFO (dev i) "gpiomem device opened." []].
    split; reflexivity.
  - exists [EvLog KERN_INFO (dev i) "gpiomem device opened." [];
            EvLog KERN_ERR (dev i) "Unknown minor device: %d" [iminor ino]].
    split; [|reflexivity]. cbn. rewrite <- app_assoc. reflexivity.
  - exists []. rewrite app_nil_r. split; reflexivity.
  - exists [EvLog KERN_ERR (dev i) "Unknown minor device %d" [iminor ino]].
    split; reflexivity.
Qed.

(** X11: the gate keeps no state.  With the driver loaded, any run of
    [open] and [release] calls, in any order (a [release] with no [open]
    before it, two [open] in a row), returns for each call 0 or [-ENXIO]
    by the minor number of that call alone, leaves the instance as it
    was and adds only log lines to the trace. *)
Theorem run_session_stateless
    (cs : list session_call) (k : kernel) (i : sunxi_gpiomem_instance) :
  inst k = PLive i ->
  exists logs,
    run_session cs k
    = Done (map (fun c => if iminor (session_inode c) =? DEVICE_MINOR
                          then 0 else - ENXIO) cs)
        {| inst := inst k; trace := trace k ++ logs |} /\
    forallb is_log logs = true.
Proof.
  intros Hi. destruct k as [p t]. simpl in Hi. subst p. simpl.
  revert t. induction cs as [|c cs IH]; intros t.
  - exists []. rewrite app_nil_r. split; reflexivity.
  - destruct (session_call_live c i t) as (l1 & Hc & Hl1).
    destruct (IH (t ++ l1)) as (l2 & Hrest & Hl2).
    exists (l1 ++ l2). split.
    + simpl. unfold bind at 1. rewrite Hc.
      unfold bind at 1. rewrite Hrest. rewrite app_assoc. reflexivity.
    + rewrite forallb_app, Hl1, Hl2. reflexivity.
Qed.

Lemma run_session_stateless_witness :
  exists logs,
    run_session [CallRelease {| i_minor := 0 |} any_file;
                 CallOpen {| i_minor := 5 |} any_file;
                 CallOpen {| i_minor := 0 |} any_file] pio_kernel
    = Done [0; - ENXIO; 0] {| inst := inst pio_kernel; trace := trace pio_kernel ++ logs |} /\
    forallb is_log logs = true.
Proof.
  apply (run_session_stateless
           [CallRelease {| i_minor := 0 |} any_file;
            CallOpen {| i_minor := 5 |} any_file;
            CallOpen {| i_minor := 0 |} any_file] pio_kernel pio_instance).
  reflexivity.
Defined.
